(** * Time-to-merge metrics: a shallow embedding of [time_to_merge.py]

    The development follows the Python module function by function:
    [measure_time_to_merge], [fetch_pull_requests], [generate_report] and
    [main].  Python code may raise and may touch the file system, so every
    function lives in one small monad that threads a [World] (files and
    standard output) and carries either a value or the exception raised. *)

From Stdlib Require Import ZArith Lia Ascii.
From stdpp Require Import base gmap strings list pretty.

Local Open Scope Z_scope.

(** ** Instants and durations

    github3 hands out timezone-aware [datetime] objects in UTC.  Such an
    object is an instant with microsecond resolution between
    [datetime.min] (0001-01-01T00:00:00) and [datetime.max]
    (9999-12-31T23:59:59.999999); it is modelled by its number of
    microseconds since [datetime.min].  A [timedelta] is a signed number of
    microseconds whose day count is kept within [-999999999, 999999999];
    building one outside that range raises [OverflowError]. *)

Definition US_PER_DAY : Z := 86400000000.

Definition datetime : Type := Z.
Definition timedelta : Type := Z.

(** [date.max.toordinal()] is 3652059, the number of days a [datetime] spans. *)
Definition DATETIME_DAYS : Z := 3652059.

Definition valid_datetime (d : datetime) : Prop :=
  0 <= d < DATETIME_DAYS * US_PER_DAY.

Definition TIMEDELTA_MAX_DAYS : Z := 999999999.

Definition timedelta_min : timedelta := - TIMEDELTA_MAX_DAYS * US_PER_DAY.
Definition timedelta_max : timedelta := (TIMEDELTA_MAX_DAYS + 1) * US_PER_DAY - 1.

Definition timedelta_in_range (us : Z) : bool :=
  (timedelta_min <=? us) && (us <=? timedelta_max).

(** [timedelta(days=n)] and [timedelta(0)]. *)
Definition timedelta_days (n : Z) : timedelta := n * US_PER_DAY.
Definition timedelta_zero : timedelta := 0.

(** [bool(td)]: a [timedelta] is falsy exactly when it is [timedelta(0)]. *)
Definition timedelta_bool (td : timedelta) : bool := negb (td =? 0).

(** ** The world, exceptions and the monad *)

Inductive exn : Type :=
| OverflowError
| ZeroDivisionError.

Inductive result (A : Type) : Type :=
| Ok (a : A)
| Raise (e : exn).
Arguments Ok {A} a.
Arguments Raise {A} e.

(** A file is the sequence of strings passed to [file.write], in order. *)
Record World : Type := mkWorld {
  files : gmap string (list string);
  stdout : list string
}.

Definition M (A : Type) : Type := World -> World * result A.

Definition ret {A} (a : A) : M A := fun w => (w, Ok a).
Definition raise {A} (e : exn) : M A := fun w => (w, Raise e).
Definition bind {A B} (m : M A) (k : A -> M B) : M B :=
  fun w =>
    match m w with
    | (w', Ok a) => k a w'
    | (w', Raise e) => (w', Raise e)
    end.

Notation "'let*' x ':=' m 'in' k" := (bind m (fun x => k))
  (at level 10, x name, m at level 100, k at level 200).
Notation "m ';;' k" := (bind m (fun _ => k))
  (at level 100, k at level 200, right associativity).

(** The [timedelta] constructor with its range check. *)
Definition mk_timedelta (us : Z) : M timedelta :=
  if timedelta_in_range us then ret us else raise OverflowError.

(** [a - b] on two aware datetimes. *)
Definition datetime_sub (a b : datetime) : M timedelta := mk_timedelta (a - b).

(** [a + b] on two timedeltas. *)
Definition timedelta_add (a b : timedelta) : M timedelta := mk_timedelta (a + b).

(** CPython's [_divide_and_round]: the quotient rounded to the nearest
    integer, ties going to the even one.  Python's [divmod] floors, as
    [Z.div] and [Z.modulo] do. *)
Definition divide_and_round (a b : Z) : Z :=
  let q := a / b in
  let r := 2 * (a mod b) in
  let greater_than_half := if 0 <? b then b <? r else r <? b in
  if greater_than_half || ((r =? b) && (q mod 2 =? 1)) then q + 1 else q.

(** [td / n] for an [int] [n]. *)
Definition timedelta_div (td : timedelta) (n : Z) : M timedelta :=
  if n =? 0 then raise ZeroDivisionError
  else mk_timedelta (divide_and_round td n).

(** ** Pull requests *)

Record PullRequest : Type := mkPullRequest {
  number : Z;
  created_at : datetime;
  updated_at : datetime;
  merged_at : option datetime;
  draft : bool
}.

(** ** [measure_time_to_merge]

    The function has three [return] statements; the embedding records which
    one a call reaches next to the computation it performs there. *)

Inductive ReturnSite : Type :=
| ReturnNotMerged      (* line 37: return None *)
| ReturnSinceReady     (* line 42: return merged_at - ready_for_review_at *)
| ReturnSinceCreated.  (* line 45: return merged_at - created_at *)

Definition measure_time_to_merge_at
    (pull_request : PullRequest) (ready_for_review_at : option datetime)
  : ReturnSite * M (option timedelta) :=
  match merged_at pull_request with
  | None => (ReturnNotMerged, ret None)
  | Some merged =>
      match ready_for_review_at with
      | Some ready =>
          (* [if ready_for_review_at:] a datetime object is always truthy *)
          (ReturnSinceReady,
           let* d := datetime_sub merged ready in ret (Some d))
      | None =>
          (ReturnSinceCreated,
           let* d := datetime_sub merged (created_at pull_request) in
           ret (Some d))
      end
  end.

Definition measure_time_to_merge
    (pull_request : PullRequest) (ready_for_review_at : option datetime)
  : M (option timedelta) :=
  snd (measure_time_to_merge_at pull_request ready_for_review_at).

Definition return_site
    (pull_request : PullRequest) (ready_for_review_at : option datetime)
  : ReturnSite :=
  fst (measure_time_to_merge_at pull_request ready_for_review_at).

(** ** The aggregation loop of [main] *)

(** One entry of [prs_with_metrics]: the dict with keys ['pr'],
    ['ready_for_review_at'], ['merged_at'] and ['time_to_merge']. *)
Record MetricResult : Type := mkMetricResult {
  metric_pr : Z;
  metric_ready_for_review_at : datetime;
  metric_merged_at : option datetime;
  metric_time_to_merge : timedelta
}.

(** The locals that the loop updates. *)
Record Locals : Type := mkLocals {
  prs_with_metrics : list MetricResult;
  total_time_to_merge : timedelta;
  count : Z
}.

Definition initial_locals : Locals :=
  {| prs_with_metrics := []; total_time_to_merge := timedelta_zero; count := 0 |}.

(** Line 79: [pr.created_at if not pr.draft else pr.updated_at]. *)
Definition ready_for_review_at (pr : PullRequest) : datetime :=
  if negb (draft pr) then created_at pr else updated_at pr.

(** Lines 79-89, one iteration.  [if time_to_merge:] tests truthiness, so
    both [None] and [timedelta(0)] skip the block. *)
Definition loop_body (pr : PullRequest) (st : Locals) : M Locals :=
  let ready := ready_for_review_at pr in
  let* time_to_merge := measure_time_to_merge pr (Some ready) in
  match time_to_merge with
  | Some ttm =>
      if timedelta_bool ttm then
        let appended :=
          prs_with_metrics st ++
            [{| metric_pr := number pr;
                metric_ready_for_review_at := ready;
                metric_merged_at := merged_at pr;
                metric_time_to_merge := ttm |}] in
        let* total := timedelta_add (total_time_to_merge st) ttm in
        ret {| prs_with_metrics := appended;
               total_time_to_merge := total;
               count := count st + 1 |}
      else ret st
  | None => ret st
  end.

(** [for x in xs: body], the locals threaded through the iterations. *)
Fixpoint for_each {A S : Type} (body : A -> S -> M S) (xs : list A) (s : S) : M S :=
  match xs with
  | [] => ret s
  | x :: rest => let* s' := body x s in for_each body rest s'
  end.

(** Lines 74-91: the loop and the average.  The value is what [main] passes
    on to [generate_report]: the rows, the average and the count. *)
Definition aggregate (pull_requests : list PullRequest)
  : M (list MetricResult * timedelta * Z) :=
  let* st := for_each loop_body pull_requests initial_locals in
  let* average_time_to_merge :=
    if 0 <? count st then timedelta_div (total_time_to_merge st) (count st)
    else ret timedelta_zero in
  ret (prs_with_metrics st, average_time_to_merge, count st).

(** ** The report *)

Definition nl : string := String "010"%char EmptyString.

(** [open(name, "w")] creates or truncates the file. *)
Definition open_w (name : string) : M unit :=
  fun w => ({| files := <[name := []]> (files w); stdout := stdout w |}, Ok tt).

(** [file.write(s)] on the handle of [name]. *)
Definition file_write (name : string) (s : string) : M unit :=
  fun w =>
    ({| files := <[name := default [] (files w !! name) ++ [s]]> (files w);
        stdout := stdout w |}, Ok tt).

Definition print (s : string) : M unit :=
  fun w => ({| files := files w; stdout := stdout w ++ [s] |}, Ok tt).

Definition REPORT_FILE : string := "pr_metrics.md".

Definition str_int (n : Z) : string := pretty n.

Section Report.

(** [str] of a datetime and of a timedelta: the report uses whatever the
    platform prints, which the development leaves open. *)
Variable str_datetime : datetime -> string.
Variable str_timedelta : timedelta -> string.

Definition str_optional_datetime (d : option datetime) : string :=
  match d with
  | Some t => str_datetime t
  | None => "None"
  end.

(** Line 59, the f-string of one table row. *)
Definition row_line (pr_metric : MetricResult) : string :=
  "| " +:+ str_int (metric_pr pr_metric) +:+
  " | " +:+ str_datetime (metric_ready_for_review_at pr_metric) +:+
  " | " +:+ str_optional_datetime (metric_merged_at pr_metric) +:+
  " | " +:+ str_timedelta (metric_time_to_merge pr_metric) +:+ " |" +:+ nl.

Definition header_lines : list string :=
  [ "# PR Metrics" +:+ nl +:+ nl;
    "| PR | Ready for Review | Merged At | Total Time Taken |" +:+ nl;
    "| --- | --- | --- | --- |" +:+ nl ].

Definition average_line (average_time_to_merge : timedelta) : string :=
  nl +:+ "**Average Time to Merge:** " +:+ str_timedelta average_time_to_merge +:+ nl.

Definition open_prs_line (total_open_prs : Z) : string :=
  nl +:+ "**Total Open PRs:** " +:+ str_int total_open_prs +:+ nl.

Definition closed_prs_line (n : Z) : string :=
  nl +:+ "**Total Closed PRs:** " +:+ str_int n +:+ nl.

Definition write_row (pr_metric : MetricResult) (u : unit) : M unit :=
  file_write REPORT_FILE (row_line pr_metric).

Definition generate_report
    (metrics : list MetricResult) (average_time_to_merge : timedelta)
    (total_open_prs : Z) (n : Z) : M unit :=
  open_w REPORT_FILE ;;
  file_write REPORT_FILE ("# PR Metrics" +:+ nl +:+ nl) ;;
  file_write REPORT_FILE
    ("| PR | Ready for Review | Merged At | Total Time Taken |" +:+ nl) ;;
  file_write REPORT_FILE ("| --- | --- | --- | --- |" +:+ nl) ;;
  for_each write_row metrics tt ;;
  file_write REPORT_FILE (average_line average_time_to_merge) ;;
  file_write REPORT_FILE (open_prs_line total_open_prs) ;;
  file_write REPORT_FILE (closed_prs_line n) ;;
  print "Wrote PR metrics to pr_metrics.md".

(** ** [main]

    Logging in and fetching are the hosting service's business; what
    reaches the code is the sequence of closed pull requests and the
    [count] attribute of the open ones. *)
Record Repository : Type := mkRepository {
  closed_pull_requests : list PullRequest;
  open_pull_requests_count : Z
}.

Definition fetch_pull_requests (repo : Repository) : list PullRequest :=
  closed_pull_requests repo.

Definition main (repo : Repository) : M unit :=
  let pull_requests := fetch_pull_requests repo in
  let* agg := aggregate pull_requests in
  let '(metrics, average_time_to_merge, n) := agg in
  let total_open_prs := open_pull_requests_count repo in
  generate_report metrics average_time_to_merge total_open_prs n.

End Report.

(** ** Reading the input: which records are merged, and what they measure *)

Definition valid_pull_request (pr : PullRequest) : Prop :=
  valid_datetime (created_at pr) /\ valid_datetime (updated_at pr) /\
  forall merged, merged_at pr = Some merged -> valid_datetime merged.

Definition is_merged (pr : PullRequest) : bool :=
  match merged_at pr with Some _ => true | None => false end.

(** The duration of a merged record as the loop measures it. *)
Definition duration (pr : PullRequest) : Z :=
  match merged_at pr with
  | Some merged => merged - ready_for_review_at pr
  | None => 0
  end.

(** The records for which the loop appends a row. *)
Definition emitted (pr : PullRequest) : bool :=
  is_merged pr && timedelta_bool (duration pr).

Definition metric_of (pr : PullRequest) : MetricResult :=
  {| metric_pr := number pr;
     metric_ready_for_review_at := ready_for_review_at pr;
     metric_merged_at := merged_at pr;
     metric_time_to_merge := duration pr |}.

Definition sum_durations (prs : list PullRequest) : Z :=
  foldr (fun pr acc => duration pr + acc) 0 prs.

Definition total_abs_duration (prs : list PullRequest) : Z :=
  foldr (fun pr acc => Z.abs (duration pr) + acc) 0 prs.

(** No running total leaves the range of [timedelta]. *)
Definition durations_fit (prs : list PullRequest) : Prop :=
  total_abs_duration prs <= TIMEDELTA_MAX_DAYS * US_PER_DAY.

(** The average as the specification words it: the durations of the merged
    records, summed, over the number of merged records; zero when there is
    none. *)
Definition spec_merged_records (prs : list PullRequest) : list PullRequest :=
  filter (fun pr => is_merged pr = true) prs.

Definition spec_average (prs : list PullRequest) : timedelta :=
  let merged := spec_merged_records prs in
  let n := Z.of_nat (length merged) in
  if 0 <? n then divide_and_round (sum_durations merged) n else timedelta_zero.

(** What the code computes: the same over the emitted records. *)
Definition emitted_records (prs : list PullRequest) : list PullRequest :=
  filter (fun pr => emitted pr = true) prs.

Definition code_average (prs : list PullRequest) : timedelta :=
  let rows := emitted_records prs in
  let n := Z.of_nat (length rows) in
  if 0 <? n then divide_and_round (sum_durations rows) n else timedelta_zero.

(** A row measures from the ready-for-review timestamp it stores. *)
Definition measures_since_ready (m : MetricResult) : Prop :=
  exists merged,
    metric_merged_at m = Some merged /\
    metric_time_to_merge m = merged - metric_ready_for_review_at m.

(** The report file after a run. *)
Definition report_of (w : World) : option (list string) := files w !! REPORT_FILE.

(** Sample records used to exercise the statements. *)
Definition SAMPLE_INSTANT : datetime := 63000000000 * 1000000.

Definition pr_two_days : PullRequest :=
  {| number := 1; created_at := SAMPLE_INSTANT; updated_at := SAMPLE_INSTANT + timedelta_days 5;
     merged_at := Some (SAMPLE_INSTANT + timedelta_days 2); draft := false |}.

Definition pr_four_days : PullRequest :=
  {| number := 2; created_at := SAMPLE_INSTANT; updated_at := SAMPLE_INSTANT + timedelta_days 5;
     merged_at := Some (SAMPLE_INSTANT + timedelta_days 4); draft := false |}.

Definition pr_unmerged : PullRequest :=
  {| number := 3; created_at := SAMPLE_INSTANT; updated_at := SAMPLE_INSTANT + timedelta_days 1;
     merged_at := None; draft := false |}.

(** Created and merged within the same second. *)
Definition pr_instant : PullRequest :=
  {| number := 4; created_at := SAMPLE_INSTANT; updated_at := SAMPLE_INSTANT;
     merged_at := Some SAMPLE_INSTANT; draft := false |}.

(** Merge timestamp before the creation timestamp. *)
Definition pr_backwards : PullRequest :=
  {| number := 5; created_at := SAMPLE_INSTANT + timedelta_days 1; updated_at := SAMPLE_INSTANT + timedelta_days 1;
     merged_at := Some SAMPLE_INSTANT; draft := false |}.

Definition pr_draft : PullRequest :=
  {| number := 6; created_at := SAMPLE_INSTANT; updated_at := SAMPLE_INSTANT + timedelta_days 1;
     merged_at := Some (SAMPLE_INSTANT + timedelta_days 3); draft := true |}.

(** The same merge as [pr_two_days] under another number, update time and
    draft flag. *)
Definition pr_two_days_again : PullRequest :=
  {| number := 7; created_at := SAMPLE_INSTANT; updated_at := SAMPLE_INSTANT + timedelta_days 9;
     merged_at := Some (SAMPLE_INSTANT + timedelta_days 2); draft := true |}.

Definition sample_pull_requests : list PullRequest :=
  [pr_unmerged; pr_draft; pr_instant; pr_backwards; pr_two_days].

Definition empty_world : World := {| files := ∅; stdout := [] |}.

Definition used_world : World :=
  {| files := {[ "notes.txt" := ["kept"] ]}; stdout := ["started"] |}.

Definition sample_repository : Repository :=
  {| closed_pull_requests := sample_pull_requests; open_pull_requests_count := 2 |}.

Definition unmerged_repository : Repository :=
  {| closed_pull_requests := [pr_unmerged; pr_unmerged]; open_pull_requests_count := 0 |}.

Definition sample_str_datetime (d : datetime) : string := "t" +:+ str_int d.
Definition sample_str_timedelta (td : timedelta) : string := str_int td +:+ "us".

(** ** The loop with its calculator left open

    Lines 79-89 once more, with the function called on line 80 as a
    parameter.  What an iteration asks of the calculator and what it does
    with the answer can then be told apart; with [measure_time_to_merge]
    for the parameter this is [loop_body]. *)
Definition loop_body_with
    (calculator : PullRequest -> option datetime -> M (option timedelta))
    (pr : PullRequest) (st : Locals) : M Locals :=
  let ready := ready_for_review_at pr in
  let* time_to_merge := calculator pr (Some ready) in
  match time_to_merge with
  | Some ttm =>
      if timedelta_bool ttm then
        let appended :=
          prs_with_metrics st ++
            [{| metric_pr := number pr;
                metric_ready_for_review_at := ready;
                metric_merged_at := merged_at pr;
                metric_time_to_merge := ttm |}] in
        let* total := timedelta_add (total_time_to_merge st) ttm in
        ret {| prs_with_metrics := appended;
               total_time_to_merge := total;
               count := count st + 1 |}
      else ret st
  | None => ret st
  end.

(** The calculator without its lines 44-45: called without a
    ready-for-review timestamp it raises instead of measuring from
    [created_at]. *)
Definition measure_time_to_merge_without_fallback
    (pull_request : PullRequest) (ready_for_review_at : option datetime)
  : M (option timedelta) :=
  match ready_for_review_at with
  | Some _ => measure_time_to_merge pull_request ready_for_review_at
  | None => raise ZeroDivisionError
  end.

(** ** Further readings of the output *)

(** The durations shown in a list of rows, summed. *)
Definition sum_time_to_merge (metrics : list MetricResult) : Z :=
  foldr (fun m acc => metric_time_to_merge m + acc) 0 metrics.

(** The rows, average and count the aggregation returns when it returns. *)
Definition aggregate_value (prs : list PullRequest)
  : list MetricResult * timedelta * Z :=
  (map metric_of (emitted_records prs), code_average prs,
   Z.of_nat (length (emitted_records prs))).

(** The contents of the report for given rows, average and counts. *)
Definition report_lines
    (str_datetime : datetime -> string) (str_timedelta : timedelta -> string)
    (metrics : list MetricResult) (average : timedelta) (total_open_prs n : Z)
  : list string :=
  header_lines ++ map (row_line str_datetime str_timedelta) metrics ++
  [average_line str_timedelta average; open_prs_line total_open_prs; closed_prs_line n].

(** A record that spans the whole range of datetimes: created at
    [datetime.min], merged at [datetime.max]. *)
Definition pr_widest : PullRequest :=
  {| number := 8; created_at := 0; updated_at := 0;
     merged_at := Some (DATETIME_DAYS * US_PER_DAY - 1); draft := false |}.

Definition widest_pull_requests (k : nat) : list PullRequest := replicate k pr_widest.

(** Two records merged one and two microseconds after creation: their mean
    is a tie between one and two microseconds. *)
Definition pr_one_microsecond : PullRequest :=
  {| number := 9; created_at := SAMPLE_INSTANT; updated_at := SAMPLE_INSTANT;
     merged_at := Some (SAMPLE_INSTANT + 1); draft := false |}.

Definition pr_two_microseconds : PullRequest :=
  {| number := 10; created_at := SAMPLE_INSTANT; updated_at := SAMPLE_INSTANT;
     merged_at := Some (SAMPLE_INSTANT + 2); draft := false |}.

(** Locals in the middle of a run. *)
Definition sample_locals : Locals :=
  {| prs_with_metrics := [metric_of pr_two_days];
     total_time_to_merge := timedelta_days 2;
     count := 1 |}.

Definition forward_pull_requests : list PullRequest :=
  [pr_unmerged; pr_draft; pr_two_days].

(** A world left by an earlier run: an old report and another file. *)
Definition stale_world : World :=
  {| files := {[ "pr_metrics.md" := ["old report"]; "notes.txt" := ["kept"] ]};
     stdout := ["started"] |}.

Definition widest_repository : Repository :=
  {| closed_pull_requests := widest_pull_requests 274; open_pull_requests_count := 0 |}.

(** Validity of a sample instant, by evaluation. *)
Ltac valid_sample := vm_compute; split; [discriminate | reflexivity].

(** Validity of a sample record, field by field. *)
Ltac valid_sample_record :=
  split; [valid_sample | split; [valid_sample |]];
  let merged := fresh "merged" in
  let Hm := fresh "Hm" in
  intros merged Hm; vm_compute in Hm;
  first [discriminate Hm | injection Hm as <-; valid_sample].

(** A property of each element of a sample list, element by element. *)
Ltac each_sample tac :=
  repeat (apply Forall_cons_2; [tac |]); apply Forall_nil_2.

(** * Properties *)

(** ** The monad and the time arithmetic *)

Lemma mk_timedelta_in_range us w :
  timedelta_min <= us <= timedelta_max -> mk_timedelta us w = (w, Ok us).
Proof.
  intros [Hlo Hhi]. unfold mk_timedelta, timedelta_in_range.
  apply Z.leb_le in Hlo. apply Z.leb_le in Hhi.
  rewrite Hlo, Hhi. reflexivity.
Qed.

Lemma mk_timedelta_inv us w w' td :
  mk_timedelta us w = (w', Ok td) -> w' = w /\ td = us.
Proof.
  unfold mk_timedelta. destruct (timedelta_in_range us); unfold ret, raise; 
    intros H; inversion H; auto.
Qed.

Lemma mk_timedelta_world us w : fst (mk_timedelta us w) = w.
Proof. unfold mk_timedelta. destruct (timedelta_in_range us); reflexivity. Qed.

Lemma datetime_sub_valid a b w :
  valid_datetime a -> valid_datetime b -> datetime_sub a b w = (w, Ok (a - b)).
Proof.
  unfold valid_datetime, datetime_sub. intros Ha Hb.
  apply mk_timedelta_in_range.
  unfold timedelta_min, timedelta_max, TIMEDELTA_MAX_DAYS, DATETIME_DAYS, US_PER_DAY in *.
  lia.
Qed.

Lemma abs_bound_in_range us :
  Z.abs us <= TIMEDELTA_MAX_DAYS * US_PER_DAY -> timedelta_min <= us <= timedelta_max.
Proof.
  unfold timedelta_min, timedelta_max, TIMEDELTA_MAX_DAYS, US_PER_DAY. lia.
Qed.

Lemma divide_and_round_one a : divide_and_round a 1 = a.
Proof.
  unfold divide_and_round. rewrite Z.div_1_r, Z.mod_1_r. reflexivity.
Qed.

Lemma divide_and_round_bounds a b :
  0 < b -> - Z.abs a <= divide_and_round a b <= Z.abs a + 1.
Proof.
  intros Hb. unfold divide_and_round.
  pose proof (Z.div_mod a b ltac:(lia)) as Hdm.
  pose proof (Z.mod_pos_bound a b Hb) as Hr.
  assert (Hq : - Z.abs a <= a / b <= Z.abs a).
  { split.
    - destruct (Z_lt_le_dec a 0).
      + assert (a <= a / b); [| lia].
        apply Z.div_le_lower_bound; [lia|]. nia.
      + pose proof (Z.div_pos a b ltac:(lia) Hb). lia.
    - destruct (Z_lt_le_dec a 0).
      + pose proof (Z.div_lt_upper_bound a b 0 Hb ltac:(lia)). lia.
      + assert (a / b <= a); [| lia].
        apply Z.div_le_upper_bound; [lia|]. nia. }
  destruct (_ || _); lia.
Qed.

(** Dividing by a zero count is what the guard on line 91 keeps away. *)
Lemma timedelta_div_by_zero td w :
  timedelta_div td 0 w = (w, Raise ZeroDivisionError).
Proof. reflexivity. Qed.

Lemma timedelta_div_fits td n w :
  0 < n -> Z.abs td <= TIMEDELTA_MAX_DAYS * US_PER_DAY ->
  timedelta_div td n w = (w, Ok (divide_and_round td n)).
Proof.
  intros Hn Htd. unfold timedelta_div.
  destruct (n =? 0) eqn:E; [apply Z.eqb_eq in E; lia|].
  apply mk_timedelta_in_range.
  pose proof (divide_and_round_bounds td n Hn).
  unfold timedelta_min, timedelta_max, TIMEDELTA_MAX_DAYS, US_PER_DAY in *. lia.
Qed.

(** ** The metric calculator *)

Lemma measure_time_to_merge_world pr ready w :
  fst (measure_time_to_merge pr ready w) = w.
Proof.
  unfold measure_time_to_merge, measure_time_to_merge_at.
  destruct (merged_at pr) as [merged|]; [|reflexivity].
  destruct ready as [ready|]; cbn [snd]; unfold bind, datetime_sub.
  - pose proof (mk_timedelta_world (merged - ready) w) as Hw.
    destruct (mk_timedelta (merged - ready) w) as [w' [td|e]]; exact Hw.
  - pose proof (mk_timedelta_world (merged - created_at pr) w) as Hw.
    destruct (mk_timedelta (merged - created_at pr) w) as [w' [td|e]]; exact Hw.
Qed.

Lemma measure_time_to_merge_from_ready pr merged ready w :
  merged_at pr = Some merged ->
  measure_time_to_merge pr (Some ready) w =
    (let* d := datetime_sub merged ready in ret (Some d)) w.
Proof.
  intros Hm. unfold measure_time_to_merge, measure_time_to_merge_at.
  rewrite Hm. reflexivity.
Qed.

Lemma measure_time_to_merge_from_ready_valid pr merged ready w :
  valid_datetime merged -> valid_datetime ready ->
  merged_at pr = Some merged ->
  measure_time_to_merge pr (Some ready) w = (w, Ok (Some (merged - ready))).
Proof.
  intros Hm Hr Hpr.
  rewrite (measure_time_to_merge_from_ready pr merged ready w Hpr).
  unfold bind. rewrite (datetime_sub_valid merged ready w Hm Hr). reflexivity.
Qed.

(** C1: when [mergedAt] is present and a ready-for-review timestamp is
    supplied, the calculator returns exactly [mergedAt - readyForReviewAt],
    whatever its sign, and leaves the world as it found it. *)
Theorem measure_time_to_merge_since_ready
    (pr : PullRequest) (merged ready : datetime) (w : World) :
  valid_datetime merged -> valid_datetime ready ->
  merged_at pr = Some merged ->
  measure_time_to_merge pr (Some ready) w = (w, Ok (Some (merged - ready))).
Proof.
  intros Hm Hr Hpr.
  unfold measure_time_to_merge, measure_time_to_merge_at. rewrite Hpr. cbn [snd].
  unfold bind, datetime_sub.
  rewrite mk_timedelta_in_range; [reflexivity|].
  unfold valid_datetime, timedelta_min, timedelta_max,
    TIMEDELTA_MAX_DAYS, DATETIME_DAYS, US_PER_DAY in *.
  lia.
Qed.

(** C2: when [mergedAt] is present and no ready-for-review timestamp is
    supplied, the calculator returns exactly [mergedAt - createdAt]. *)
Theorem measure_time_to_merge_since_created
    (pr : PullRequest) (merged : datetime) (w : World) :
  valid_datetime merged -> valid_datetime (created_at pr) ->
  merged_at pr = Some merged ->
  measure_time_to_merge pr None w = (w, Ok (Some (merged - created_at pr))).
Proof.
  intros Hm Hc Hpr. unfold measure_time_to_merge, measure_time_to_merge_at.
  rewrite Hpr. cbn [snd]. unfold bind.
  rewrite (datetime_sub_valid merged (created_at pr) w Hm Hc). reflexivity.
Qed.

(** C3: when [mergedAt] is absent the calculator returns [None] for every
    ready-for-review argument; the call returns normally, nothing is
    raised. *)
Theorem measure_time_to_merge_not_merged
    (pr : PullRequest) (ready : option datetime) (w : World) :
  merged_at pr = None ->
  measure_time_to_merge pr ready w = (w, Ok None).
Proof.
  intros Hpr. unfold measure_time_to_merge, measure_time_to_merge_at.
  rewrite Hpr. reflexivity.
Qed.

(** C10: the calculator is a function of [mergedAt], [createdAt] and the
    ready-for-review argument alone: two calls that agree on these return
    the same result, in whatever worlds they run, and each leaves its world
    unchanged. *)
Theorem measure_time_to_merge_deterministic
    (pr1 pr2 : PullRequest) (ready1 ready2 : option datetime) (w1 w2 : World) :
  merged_at pr1 = merged_at pr2 ->
  created_at pr1 = created_at pr2 ->
  ready1 = ready2 ->
  snd (measure_time_to_merge pr1 ready1 w1) = snd (measure_time_to_merge pr2 ready2 w2) /\
  fst (measure_time_to_merge pr1 ready1 w1) = w1 /\
  fst (measure_time_to_merge pr2 ready2 w2) = w2.
Proof.
  intros Hm Hc ->.
  split; [| split; apply measure_time_to_merge_world].
  unfold measure_time_to_merge, measure_time_to_merge_at.
  rewrite Hm, Hc.
  destruct (merged_at pr2) as [merged|]; [|reflexivity].
  destruct ready2 as [ready|]; cbn [snd]; unfold bind, datetime_sub, mk_timedelta;
    destruct (timedelta_in_range _); reflexivity.
Qed.

(** ** The aggregation loop *)

(** The locals after the loop has appended the rows of [prs]. *)
Lemma emitted_records_cons pr prs :
  emitted_records (pr :: prs) =
    if emitted pr then pr :: emitted_records prs else emitted_records prs.
Proof.
  unfold emitted_records. destruct (emitted pr) eqn:E.
  - rewrite filter_cons_True; auto.
  - rewrite filter_cons_False; auto. rewrite E. discriminate.
Qed.

Lemma spec_merged_records_cons pr prs :
  spec_merged_records (pr :: prs) =
    if is_merged pr then pr :: spec_merged_records prs else spec_merged_records prs.
Proof.
  unfold spec_merged_records. destruct (is_merged pr) eqn:E.
  - rewrite filter_cons_True; auto.
  - rewrite filter_cons_False; auto. rewrite E. discriminate.
Qed.

Lemma total_abs_duration_cons pr prs :
  total_abs_duration (pr :: prs) = Z.abs (duration pr) + total_abs_duration prs.
Proof. reflexivity. Qed.

Lemma sum_durations_cons pr prs :
  sum_durations (pr :: prs) = duration pr + sum_durations prs.
Proof. reflexivity. Qed.

Lemma total_abs_duration_nonneg prs : 0 <= total_abs_duration prs.
Proof.
  induction prs as [|pr prs IH]; [reflexivity|].
  rewrite total_abs_duration_cons. lia.
Qed.

Lemma loop_body_step pr st w :
  Z.abs (duration pr) <= TIMEDELTA_MAX_DAYS * US_PER_DAY ->
  Z.abs (total_time_to_merge st + duration pr) <= TIMEDELTA_MAX_DAYS * US_PER_DAY ->
  loop_body pr st w =
    (w, Ok (if emitted pr
            then {| prs_with_metrics := prs_with_metrics st ++ [metric_of pr];
                    total_time_to_merge := total_time_to_merge st + duration pr;
                    count := count st + 1 |}
            else st)).
Proof.
  intros Hd Hsum.
  unfold loop_body, emitted, metric_of, duration, is_merged in *.
  unfold measure_time_to_merge, measure_time_to_merge_at.
  destruct (merged_at pr) as [merged|]; cbn [snd andb]; [|reflexivity].
  unfold bind at 1. unfold bind at 1. unfold datetime_sub.
  rewrite (mk_timedelta_in_range _ w (abs_bound_in_range _ Hd)).
  unfold ret at 1.
  destruct (timedelta_bool (merged - ready_for_review_at pr)); [|reflexivity].
  unfold bind, timedelta_add.
  rewrite (mk_timedelta_in_range _ w (abs_bound_in_range _ Hsum)).
  reflexivity.
Qed.

Lemma for_each_loop_body prs : forall st w,
  Z.abs (total_time_to_merge st) + total_abs_duration prs
    <= TIMEDELTA_MAX_DAYS * US_PER_DAY ->
  for_each loop_body prs st w =
    (w, Ok {| prs_with_metrics :=
                prs_with_metrics st ++ map metric_of (emitted_records prs);
              total_time_to_merge :=
                total_time_to_merge st + sum_durations (emitted_records prs);
              count := count st + Z.of_nat (length (emitted_records prs)) |}).
Proof.
  induction prs as [|pr prs IH]; intros st w Hfit.
  - destruct st as [rows total n]. cbn.
    rewrite app_nil_r, !Z.add_0_r. reflexivity.
  - rewrite total_abs_duration_cons in Hfit.
    pose proof (total_abs_duration_nonneg prs) as Hnn.
    cbn [for_each]. unfold bind at 1.
    rewrite loop_body_step by lia.
    rewrite emitted_records_cons.
    destruct (emitted pr) eqn:E.
    + rewrite IH by (cbn [total_time_to_merge]; lia).
      rewrite sum_durations_cons.
      cbn [prs_with_metrics total_time_to_merge count map length].
      rewrite <- app_assoc. cbn [app].
      do 3 f_equal; [lia | lia].
    + apply IH.
      assert (duration pr = 0); [| lia].
      unfold emitted, timedelta_bool in E.
      destruct (is_merged pr) eqn:Em; cbn in E.
      * apply negb_false_iff, Z.eqb_eq in E. exact E.
      * unfold duration, is_merged in *. destruct (merged_at pr); [discriminate | reflexivity].
Qed.

Lemma sum_durations_bound prs :
  Z.abs (sum_durations prs) <= total_abs_duration prs.
Proof.
  induction prs as [|pr prs IH]; [reflexivity|].
  rewrite sum_durations_cons, total_abs_duration_cons. lia.
Qed.

Lemma total_abs_duration_emitted prs :
  total_abs_duration (emitted_records prs) <= total_abs_duration prs.
Proof.
  induction prs as [|pr prs IH]; [reflexivity|].
  rewrite emitted_records_cons.
  destruct (emitted pr); rewrite !total_abs_duration_cons; lia.
Qed.

(** What the aggregation hands to the report writer. *)
Lemma aggregate_fits prs w :
  durations_fit prs ->
  aggregate prs w =
    (w, Ok (map metric_of (emitted_records prs),
            code_average prs,
            Z.of_nat (length (emitted_records prs)))).
Proof.
  unfold durations_fit. intros Hfit.
  unfold aggregate. unfold bind at 1.
  rewrite for_each_loop_body
    by (unfold initial_locals, timedelta_zero; cbn [total_time_to_merge]; lia).
  cbn [prs_with_metrics total_time_to_merge count initial_locals app].
  unfold timedelta_zero at 1. rewrite !Z.add_0_l.
  unfold code_average.
  destruct (0 <? Z.of_nat (length (emitted_records prs))) eqn:E.
  - unfold bind. rewrite timedelta_div_fits.
    + reflexivity.
    + apply Z.ltb_lt in E. exact E.
    + pose proof (sum_durations_bound (emitted_records prs)).
      pose proof (total_abs_duration_emitted prs). lia.
  - reflexivity.
Qed.

(** A sequence of at most 273 well-formed records always fits. *)
Lemma duration_valid_bound pr :
  valid_pull_request pr -> Z.abs (duration pr) <= DATETIME_DAYS * US_PER_DAY.
Proof.
  intros (Hc & Hu & Hm). unfold duration, ready_for_review_at.
  destruct (merged_at pr) as [merged|].
  - specialize (Hm merged eq_refl).
    unfold valid_datetime, DATETIME_DAYS, US_PER_DAY in *.
    destruct (negb (draft pr)); lia.
  - unfold DATETIME_DAYS, US_PER_DAY. lia.
Qed.

Lemma valid_pull_requests_fit prs :
  Forall valid_pull_request prs -> (length prs <= 273)%nat -> durations_fit prs.
Proof.
  intros Hall Hlen. unfold durations_fit.
  assert (H : total_abs_duration prs <= Z.of_nat (length prs) * (DATETIME_DAYS * US_PER_DAY)).
  { clear Hlen. induction Hall as [|pr prs Hpr Hall IH]; [cbn; lia|].
    pose proof (duration_valid_bound pr Hpr).
    rewrite total_abs_duration_cons. cbn [length]. lia. }
  unfold TIMEDELTA_MAX_DAYS, DATETIME_DAYS, US_PER_DAY in *. lia.
Qed.

(** ** The report writer *)

Section ReportProperties.

Variable str_datetime : datetime -> string.
Variable str_timedelta : timedelta -> string.

Lemma file_write_appends name s (fs : gmap string (list string)) out l :
  fs !! name = Some l ->
  file_write name s (mkWorld fs out) = (mkWorld (<[name := l ++ [s]]> fs) out, Ok tt).
Proof. intros Hl. unfold file_write. cbn [files stdout]. rewrite Hl. reflexivity. Qed.

Lemma for_each_write_row metrics : forall (fs : gmap string (list string)) out l,
  fs !! REPORT_FILE = Some l ->
  for_each (write_row str_datetime str_timedelta) metrics tt (mkWorld fs out) =
    (mkWorld (<[REPORT_FILE := l ++ map (row_line str_datetime str_timedelta) metrics]> fs) out,
     Ok tt).
Proof.
  induction metrics as [|m metrics IH]; intros fs out l Hl.
  - cbn [for_each map]. rewrite app_nil_r, insert_id by exact Hl. reflexivity.
  - cbn [for_each map]. unfold bind at 1. unfold write_row at 1.
    rewrite (file_write_appends _ _ fs out l Hl).
    rewrite (IH _ out (l ++ [row_line str_datetime str_timedelta m]))
      by apply lookup_insert_eq.
    rewrite insert_insert_eq, <- app_assoc. reflexivity.
Qed.

(** The report file holds the three header lines, one line per metric in
    list order, and the three closing lines. *)
Lemma generate_report_writes metrics average total_open_prs n w :
  generate_report str_datetime str_timedelta metrics average total_open_prs n w =
    (mkWorld
       (<[REPORT_FILE :=
            header_lines ++ map (row_line str_datetime str_timedelta) metrics ++
            [average_line str_timedelta average;
             open_prs_line total_open_prs;
             closed_prs_line n]]> (files w))
       (stdout w ++ ["Wrote PR metrics to pr_metrics.md"]),
     Ok tt).
Proof.
  destruct w as [fs out]. unfold generate_report.
  unfold bind at 1. unfold open_w at 1. cbn [files stdout].
  unfold bind at 1. rewrite (file_write_appends _ _ _ out []) by apply lookup_insert_eq.
  rewrite insert_insert_eq.
  unfold bind at 1. rewrite (file_write_appends _ _ _ out _ (lookup_insert_eq _ _ _)).
  rewrite insert_insert_eq.
  unfold bind at 1. rewrite (file_write_appends _ _ _ out _ (lookup_insert_eq _ _ _)).
  rewrite insert_insert_eq.
  unfold bind at 1. rewrite (for_each_write_row metrics _ out _ (lookup_insert_eq _ _ _)).
  rewrite insert_insert_eq.
  unfold bind at 1. rewrite (file_write_appends _ _ _ out _ (lookup_insert_eq _ _ _)).
  rewrite insert_insert_eq.
  unfold bind at 1. rewrite (file_write_appends _ _ _ out _ (lookup_insert_eq _ _ _)).
  rewrite insert_insert_eq.
  unfold bind at 1. rewrite (file_write_appends _ _ _ out _ (lookup_insert_eq _ _ _)).
  rewrite insert_insert_eq.
  unfold print. cbn [files stdout]. unfold header_lines.
  cbn [app]. rewrite <- !app_assoc. reflexivity.
Qed.

Lemma main_fits repo w :
  durations_fit (closed_pull_requests repo) ->
  main str_datetime str_timedelta repo w =
    (mkWorld
       (<[REPORT_FILE :=
            header_lines ++
            map (row_line str_datetime str_timedelta)
                (map metric_of (emitted_records (closed_pull_requests repo))) ++
            [average_line str_timedelta (code_average (closed_pull_requests repo));
             open_prs_line (open_pull_requests_count repo);
             closed_prs_line (Z.of_nat (length (emitted_records (closed_pull_requests repo))))]]>
          (files w))
       (stdout w ++ ["Wrote PR metrics to pr_metrics.md"]),
     Ok tt).
Proof.
  intros Hfit. unfold main, fetch_pull_requests. unfold bind at 1.
  rewrite (aggregate_fits _ w Hfit).
  apply generate_report_writes.
Qed.

End ReportProperties.

(** ** The aggregation as a whole *)

Lemma code_average_single pr :
  emitted pr = true -> code_average [pr] = duration pr.
Proof.
  intros E. unfold code_average. rewrite emitted_records_cons, E.
  unfold emitted_records. rewrite filter_nil. cbn [length].
  rewrite sum_durations_cons. cbn [sum_durations foldr].
  change (Z.of_nat 1) with 1. cbn [Z.ltb Z.compare].
  rewrite divide_and_round_one. lia.
Qed.

(** Records without a merge timestamp never reach the report. *)
Lemma emitted_records_none_merged prs :
  Forall (fun pr => merged_at pr = None) prs -> emitted_records prs = [].
Proof.
  induction 1 as [|pr prs Hpr Hall IH]; [reflexivity|].
  rewrite emitted_records_cons. unfold emitted, is_merged. rewrite Hpr. exact IH.
Qed.

Lemma total_abs_duration_none_merged prs :
  Forall (fun pr => merged_at pr = None) prs -> total_abs_duration prs = 0.
Proof.
  induction 1 as [|pr prs Hpr Hall IH]; [reflexivity|].
  rewrite total_abs_duration_cons, IH. unfold duration. rewrite Hpr. reflexivity.
Qed.

(** When no merged record has a zero duration, the rows are the merged
    records and the average is the one the specification describes. *)
Lemma emitted_records_all_merged prs :
  Forall (fun pr => is_merged pr = true -> duration pr <> 0) prs ->
  emitted_records prs = spec_merged_records prs.
Proof.
  induction 1 as [|pr prs Hpr Hall IH]; [reflexivity|].
  rewrite emitted_records_cons, spec_merged_records_cons, IH.
  unfold emitted, timedelta_bool.
  destruct (is_merged pr); [|reflexivity].
  specialize (Hpr eq_refl). apply Z.eqb_neq in Hpr. rewrite Hpr. reflexivity.
Qed.

Lemma code_average_without_instant_merges prs :
  Forall (fun pr => is_merged pr = true -> duration pr <> 0) prs ->
  code_average prs = spec_average prs.
Proof.
  intros H. unfold code_average, spec_average.
  rewrite (emitted_records_all_merged prs H). reflexivity.
Qed.

Lemma aggregate_without_instant_merges prs w :
  durations_fit prs ->
  Forall (fun pr => is_merged pr = true -> duration pr <> 0) prs ->
  aggregate prs w =
    (w, Ok (map metric_of (spec_merged_records prs),
            spec_average prs,
            Z.of_nat (length (spec_merged_records prs)))).
Proof.
  intros Hfit H. rewrite (aggregate_fits prs w Hfit).
  rewrite (code_average_without_instant_merges prs H).
  rewrite (emitted_records_all_merged prs H). reflexivity.
Qed.

Lemma durations_fit_samples :
  durations_fit [pr_two_days; pr_four_days] /\
  durations_fit [pr_instant; pr_four_days] /\
  durations_fit [pr_instant] /\
  durations_fit sample_pull_requests.
Proof. unfold durations_fit. repeat split; vm_compute; discriminate. Qed.

(** Two records merged after two and after four days average three days. *)
Lemma average_two_and_four_days w :
  aggregate [pr_two_days; pr_four_days] w =
    (w, Ok ([metric_of pr_two_days; metric_of pr_four_days], timedelta_days 3, 2)).
Proof.
  rewrite aggregate_fits by apply durations_fit_samples. reflexivity.
Qed.

Lemma loop_body_keeps (P : MetricResult -> Prop) pr st w w' st' :
  (forall merged ttm,
     merged_at pr = Some merged -> ttm = merged - ready_for_review_at pr ->
     P {| metric_pr := number pr;
          metric_ready_for_review_at := ready_for_review_at pr;
          metric_merged_at := merged_at pr;
          metric_time_to_merge := ttm |}) ->
  loop_body pr st w = (w', Ok st') ->
  Forall P (prs_with_metrics st) -> Forall P (prs_with_metrics st').
Proof.
  intros Hnew Hrun Hst. unfold loop_body in Hrun.
  unfold measure_time_to_merge, measure_time_to_merge_at in Hrun.
  destruct (merged_at pr) as [merged|] eqn:Hm; cbn [snd] in Hrun.
  - unfold bind at 1 in Hrun. unfold bind at 1 in Hrun. unfold datetime_sub in Hrun.
    destruct (mk_timedelta (merged - ready_for_review_at pr) w) as [w1 [ttm|e]] eqn:Hsub;
      [|discriminate].
    apply mk_timedelta_inv in Hsub as [-> ->].
    unfold ret at 1 in Hrun.
    destruct (timedelta_bool (merged - ready_for_review_at pr)).
    + unfold bind, timedelta_add in Hrun.
      destruct (mk_timedelta _ w) as [w2 [total|e]]; [|discriminate].
      unfold ret in Hrun. inversion Hrun; subst. cbn [prs_with_metrics].
      apply Forall_app. split; [exact Hst|].
      constructor; [|constructor]. apply (Hnew merged); reflexivity.
    + unfold ret in Hrun. inversion Hrun; subst. exact Hst.
  - unfold bind, ret in Hrun. inversion Hrun; subst. exact Hst.
Qed.

Lemma for_each_loop_body_keeps (P : MetricResult -> Prop) prs :
  (forall pr merged,
     merged_at pr = Some merged ->
     P {| metric_pr := number pr;
          metric_ready_for_review_at := ready_for_review_at pr;
          metric_merged_at := merged_at pr;
          metric_time_to_merge := merged - ready_for_review_at pr |}) ->
  forall st w w' st',
    for_each loop_body prs st w = (w', Ok st') ->
    Forall P (prs_with_metrics st) -> Forall P (prs_with_metrics st').
Proof.
  intros Hnew. induction prs as [|pr prs IH]; intros st w w' st' Hrun Hst.
  - cbn in Hrun. unfold ret in Hrun. inversion Hrun; subst. exact Hst.
  - cbn [for_each] in Hrun. unfold bind at 1 in Hrun.
    destruct (loop_body pr st w) as [w1 [st1|e]] eqn:Hbody; [|discriminate].
    apply (IH st1 w1 w' st' Hrun).
    apply (loop_body_keeps P pr st w w1 st1); [| exact Hbody | exact Hst].
    intros merged ttm Hm ->. apply Hnew. exact Hm.
Qed.

Lemma aggregate_rows prs w w' metrics average n :
  aggregate prs w = (w', Ok (metrics, average, n)) ->
  exists st w1,
    for_each loop_body prs initial_locals w = (w1, Ok st) /\
    metrics = prs_with_metrics st /\ n = count st.
Proof.
  unfold aggregate. unfold bind at 1.
  destruct (for_each loop_body prs initial_locals w) as [w1 [st|e]]; [|discriminate].
  intros Hrun. exists st, w1. split; [reflexivity|].
  unfold bind in Hrun.
  destruct (0 <? count st).
  - destruct (timedelta_div _ _ w1) as [w2 [td|e]]; [|discriminate].
    unfold ret in Hrun. inversion Hrun; subst. auto.
  - unfold ret in Hrun. inversion Hrun; subst. auto.
Qed.

(** ** The claims about the loop and the report *)

Lemma ready_for_review_at_policy p :
  ready_for_review_at p = if draft p then updated_at p else created_at p.
Proof. unfold ready_for_review_at. destruct (draft p); reflexivity. Qed.

Lemma loop_body_with_raises calculator p s w0 w1 e :
  calculator p (Some (ready_for_review_at p)) w0 = (w1, Raise e) ->
  loop_body_with calculator p s w0 = (w1, Raise e).
Proof. intros H. unfold loop_body_with, bind. rewrite H. reflexivity. Qed.

Lemma loop_body_with_same_call calculator1 calculator2 p s w0 :
  calculator1 p (Some (ready_for_review_at p)) w0 =
    calculator2 p (Some (ready_for_review_at p)) w0 ->
  loop_body_with calculator1 p s w0 = loop_body_with calculator2 p s w0.
Proof. intros H. unfold loop_body_with, bind. rewrite H. reflexivity. Qed.

(** C4: in every iteration, whatever the locals hold, the loop calls the
    calculator on the record and on [createdAt] when the record is not a
    draft, on [updatedAt] when it is: the iteration raises when that call
    raises, and it depends on the calculator through that call alone.  A
    merged record with [createdAt = D0], [updatedAt = D1] and
    [mergedAt = D2] is measured from [D1] when it is a draft and from [D0]
    when it is not: the call returns [D2 - D1], respectively [D2 - D0], and
    the row appended for it, at any point of the loop, stores that timestamp
    and that duration. *)
Theorem ready_for_review_follows_draft_flag
    (n : Z) (D0 D1 D2 : datetime) (is_draft : bool) (st : Locals) (w : World) :
  valid_datetime D0 -> valid_datetime D1 -> valid_datetime D2 ->
  let pr := {| number := n; created_at := D0; updated_at := D1;
               merged_at := Some D2; draft := is_draft |} in
  let ready := if is_draft then D1 else D0 in
  let policy := fun p : PullRequest => if draft p then updated_at p else created_at p in
  (forall p s, loop_body p s = loop_body_with measure_time_to_merge p s) /\
  (forall calculator p s w0 w1 e,
     calculator p (Some (policy p)) w0 = (w1, Raise e) ->
     loop_body_with calculator p s w0 = (w1, Raise e)) /\
  (forall calculator1 calculator2 p s w0,
     calculator1 p (Some (policy p)) w0 = calculator2 p (Some (policy p)) w0 ->
     loop_body_with calculator1 p s w0 = loop_body_with calculator2 p s w0) /\
  (forall p, ready_for_review_at p = policy p) /\
  ready_for_review_at pr = ready /\
  measure_time_to_merge pr (Some (ready_for_review_at pr)) w =
    (w, Ok (Some (D2 - ready))) /\
  (D2 <> ready ->
   Z.abs (total_time_to_merge st + (D2 - ready)) <= TIMEDELTA_MAX_DAYS * US_PER_DAY ->
   loop_body pr st w =
     (w, Ok {| prs_with_metrics :=
                 prs_with_metrics st ++
                 [{| metric_pr := n; metric_ready_for_review_at := ready;
                     metric_merged_at := Some D2; metric_time_to_merge := D2 - ready |}];
               total_time_to_merge := total_time_to_merge st + (D2 - ready);
               count := count st + 1 |})) /\
  (D2 <> ready ->
   aggregate [pr] w =
     (w, Ok ([{| metric_pr := n; metric_ready_for_review_at := ready;
                 metric_merged_at := Some D2; metric_time_to_merge := D2 - ready |}],
             D2 - ready, 1))).
Proof.
  intros H0 H1 H2 pr ready policy.
  assert (Hready : ready_for_review_at pr = ready).
  { rewrite ready_for_review_at_policy. reflexivity. }
  assert (Hvalid : valid_datetime ready).
  { subst ready. destruct is_draft; assumption. }
  assert (Hdur : duration pr = D2 - ready).
  { unfold duration. cbn [merged_at pr]. rewrite Hready. reflexivity. }
  assert (Hem : D2 <> ready -> emitted pr = true).
  { intros Hne. unfold emitted, is_merged, timedelta_bool. rewrite Hdur.
    cbn [merged_at pr andb]. apply negb_true_iff, Z.eqb_neq. lia. }
  assert (Hbound : Z.abs (D2 - ready) <= TIMEDELTA_MAX_DAYS * US_PER_DAY).
  { unfold valid_datetime, TIMEDELTA_MAX_DAYS, DATETIME_DAYS, US_PER_DAY in *. lia. }
  split; [reflexivity|].
  split.
  { intros calculator p s w0 w1 e Hcall. apply loop_body_with_raises.
    rewrite ready_for_review_at_policy. exact Hcall. }
  split.
  { intros calculator1 calculator2 p s w0 Hcall. apply loop_body_with_same_call.
    rewrite ready_for_review_at_policy. exact Hcall. }
  split; [exact ready_for_review_at_policy|]. split; [exact Hready|]. split; [|split].
  - rewrite Hready.
    apply measure_time_to_merge_from_ready_valid; [exact H2 | exact Hvalid | reflexivity].
  - intros Hne Hfit.
    rewrite loop_body_step by (rewrite Hdur; assumption).
    rewrite (Hem Hne). unfold metric_of. rewrite Hdur, Hready. reflexivity.
  - intros Hne.
    rewrite aggregate_fits.
    + rewrite (code_average_single pr (Hem Hne)), emitted_records_cons, (Hem Hne).
      unfold emitted_records. rewrite filter_nil. cbn [map length].
      unfold metric_of. rewrite Hdur, Hready. reflexivity.
    + unfold durations_fit. rewrite total_abs_duration_cons, Hdur.
      cbn [total_abs_duration foldr]. lia.
Qed.

Lemma for_each_loop_body_with calculator :
  (forall p ready w0,
     calculator p (Some ready) w0 = measure_time_to_merge p (Some ready) w0) ->
  forall l s w0,
    for_each (loop_body_with calculator) l s w0 = for_each loop_body l s w0.
Proof.
  intros Hsame l. induction l as [|p l IH]; intros s w0; [reflexivity|].
  cbn [for_each]. unfold bind.
  assert (Hbody : loop_body_with calculator p s w0 = loop_body p s w0).
  { apply (loop_body_with_same_call calculator measure_time_to_merge). apply Hsame. }
  rewrite Hbody. destruct (loop_body p s w0) as [w1 [s1|e]]; [apply IH | reflexivity].
Qed.

Lemma return_site_fallback p ready :
  return_site p ready = ReturnSinceCreated <-> ready = None /\ merged_at p <> None.
Proof.
  unfold return_site, measure_time_to_merge_at.
  destruct (merged_at p) as [merged|]; [destruct ready as [r|]|]; cbn [fst];
    split; try discriminate; try (intros [? ?]; congruence); auto.
Qed.

(** C9: every row the loop emits has [duration = mergedAt -
    readyForReviewAt] for the timestamp stored in that row, and the
    [createdAt] fallback of the calculator is out of the loop's reach: a
    call returns through it exactly when no timestamp is supplied for a
    merged record, and the loop, on any sequence and from any locals, runs
    the same with any calculator that answers as [measure_time_to_merge]
    does whenever a timestamp is supplied, whatever that calculator does
    without one. *)
Theorem emitted_metrics_measure_since_ready
    (prs : list PullRequest) (w w' : World)
    (metrics : list MetricResult) (average : timedelta) (n : Z) :
  aggregate prs w = (w', Ok (metrics, average, n)) ->
  Forall measures_since_ready metrics /\
  (forall p s, loop_body p s = loop_body_with measure_time_to_merge p s) /\
  (forall calculator,
     (forall p ready w0,
        calculator p (Some ready) w0 = measure_time_to_merge p (Some ready) w0) ->
     forall l s w0,
       for_each (loop_body_with calculator) l s w0 = for_each loop_body l s w0) /\
  (forall p ready,
     return_site p ready = ReturnSinceCreated <-> ready = None /\ merged_at p <> None) /\
  Forall (fun pr => return_site pr (Some (ready_for_review_at pr)) <> ReturnSinceCreated) prs.
Proof.
  intros Hrun. split; [|split; [reflexivity|split; [|split]]].
  - apply aggregate_rows in Hrun as (st & w1 & Hloop & -> & _).
    refine (for_each_loop_body_keeps measures_since_ready prs _ _ _ _ _ Hloop _).
    + intros pr merged Hm. exists merged. cbn. auto.
    + constructor.
  - exact for_each_loop_body_with.
  - exact return_site_fallback.
  - apply Forall_forall. intros pr _.
    unfold return_site, measure_time_to_merge_at.
    destruct (merged_at pr); cbn; discriminate.
Qed.

(** C5: the average handed to the report is the sum of the durations of the
    rows over the number of rows.  On a sequence holding a record merged at
    the instant it became ready and a record merged four days after, the
    code reports four days over one record, where the durations of the two
    merged records, summed and divided by two, give two days. *)
Theorem average_leaves_out_instant_merges (w : World) :
  aggregate [pr_instant; pr_four_days] w =
    (w, Ok ([metric_of pr_four_days], timedelta_days 4, 1)) /\
  spec_merged_records [pr_instant; pr_four_days] = [pr_instant; pr_four_days] /\
  spec_average [pr_instant; pr_four_days] = timedelta_days 2.
Proof.
  split; [|split; reflexivity].
  rewrite aggregate_fits by apply durations_fit_samples. reflexivity.
Qed.

(** C6: on a sequence without any merged record the aggregation returns
    normally with an average of [timedelta(0)], no row and a count of zero,
    and the report is written with that average. *)
Theorem no_merged_record_average_zero
    (str_datetime : datetime -> string) (str_timedelta : timedelta -> string)
    (repo : Repository) (w : World) :
  Forall (fun pr => merged_at pr = None) (closed_pull_requests repo) ->
  aggregate (closed_pull_requests repo) w = (w, Ok ([], timedelta_zero, 0)) /\
  exists w',
    main str_datetime str_timedelta repo w = (w', Ok tt) /\
    report_of w' =
      Some (header_lines ++
            [average_line str_timedelta timedelta_zero;
             open_prs_line (open_pull_requests_count repo);
             closed_prs_line 0]).
Proof.
  intros Hnone.
  assert (Hfit : durations_fit (closed_pull_requests repo)).
  { unfold durations_fit. rewrite (total_abs_duration_none_merged _ Hnone).
    unfold TIMEDELTA_MAX_DAYS, US_PER_DAY. lia. }
  assert (Hrows : emitted_records (closed_pull_requests repo) = [])
    by (apply emitted_records_none_merged; exact Hnone).
  assert (Havg : code_average (closed_pull_requests repo) = timedelta_zero).
  { unfold code_average. rewrite Hrows. reflexivity. }
  split.
  - rewrite (aggregate_fits _ w Hfit), Hrows, Havg. reflexivity.
  - eexists. split.
    + rewrite (main_fits str_datetime str_timedelta repo w Hfit). reflexivity.
    + unfold report_of. cbn [files]. rewrite lookup_insert_eq, Hrows, Havg. reflexivity.
Qed.

(** C7: the report has one row per emitted record and [Total Closed PRs] is
    that number.  On a single record created and merged at the same instant
    there is one merged record, yet the report has no row and says
    [Total Closed PRs: 0]. *)
Theorem report_omits_instant_merge
    (str_datetime : datetime -> string) (str_timedelta : timedelta -> string)
    (open_count : Z) (w : World) :
  let repo := {| closed_pull_requests := [pr_instant];
                 open_pull_requests_count := open_count |} in
  length (spec_merged_records (closed_pull_requests repo)) = 1%nat /\
  snd (main str_datetime str_timedelta repo w) = Ok tt /\
  report_of (fst (main str_datetime str_timedelta repo w)) =
    Some (header_lines ++
          [average_line str_timedelta timedelta_zero;
           open_prs_line open_count;
           closed_prs_line 0]).
Proof.
  intros repo. split; [reflexivity|].
  assert (Hfit : durations_fit (closed_pull_requests repo))
    by apply durations_fit_samples.
  rewrite (main_fits str_datetime str_timedelta repo w Hfit).
  split; [reflexivity|].
  unfold report_of. cbn [fst files]. rewrite lookup_insert_eq. reflexivity.
Qed.

(** The number of rows and the closing count, in general. *)
Lemma report_rows_count
    (str_datetime : datetime -> string) (str_timedelta : timedelta -> string)
    (repo : Repository) (w : World) :
  durations_fit (closed_pull_requests repo) ->
  exists rows average,
    report_of (fst (main str_datetime str_timedelta repo w)) =
      Some (header_lines ++ rows ++
            [average_line str_timedelta average;
             open_prs_line (open_pull_requests_count repo);
             closed_prs_line (Z.of_nat (length rows))]) /\
    length rows = length (emitted_records (closed_pull_requests repo)).
Proof.
  intros Hfit. rewrite (main_fits str_datetime str_timedelta repo w Hfit).
  eexists _, _. unfold report_of. cbn [fst files]. rewrite lookup_insert_eq.
  split.
  - rewrite <- (length_map metric_of), <- (length_map (row_line str_datetime str_timedelta)).
    reflexivity.
  - rewrite !length_map. reflexivity.
Qed.

(** C8: the rows of the report follow the order of the input sequence: the
    loop hands over the metrics of the emitted records in traversal order,
    the emitted records are a subsequence of the input, and the writer puts
    one line per metric in list order between the header and the closing
    lines. *)
Theorem report_rows_follow_input_order
    (str_datetime : datetime -> string) (str_timedelta : timedelta -> string)
    (repo : Repository) (w : World) :
  durations_fit (closed_pull_requests repo) ->
  let prs := closed_pull_requests repo in
  exists w' average n,
    aggregate prs w = (w, Ok (map metric_of (emitted_records prs), average, n)) /\
    main str_datetime str_timedelta repo w = (w', Ok tt) /\
    report_of w' =
      Some (header_lines ++
            map (row_line str_datetime str_timedelta)
                (map metric_of (emitted_records prs)) ++
            [average_line str_timedelta average;
             open_prs_line (open_pull_requests_count repo);
             closed_prs_line n]) /\
    emitted_records prs `sublist_of` prs.
Proof.
  intros Hfit prs. subst prs.
  eexists _, _, _. split; [apply (aggregate_fits _ w Hfit)|].
  split; [apply (main_fits str_datetime str_timedelta repo w Hfit)|].
  split.
  - unfold report_of. cbn [files]. rewrite lookup_insert_eq. reflexivity.
  - unfold emitted_records. apply sublist_filter.
Qed.

(** ** The statements at sample inputs *)


(** A merge stamped one day before the ready-for-review time measures minus
    one day. *)
Lemma measure_time_to_merge_since_ready_witness :
  valid_datetime SAMPLE_INSTANT /\
  valid_datetime (SAMPLE_INSTANT + timedelta_days 1) /\
  merged_at pr_backwards = Some SAMPLE_INSTANT /\
  measure_time_to_merge pr_backwards (Some (SAMPLE_INSTANT + timedelta_days 1)) used_world =
    (used_world, Ok (Some (SAMPLE_INSTANT - (SAMPLE_INSTANT + timedelta_days 1)))).
Proof.
  assert (H1 : valid_datetime SAMPLE_INSTANT) by valid_sample.
  assert (H2 : valid_datetime (SAMPLE_INSTANT + timedelta_days 1)) by valid_sample.
  split; [exact H1|]. split; [exact H2|]. split; [reflexivity|].
  exact (measure_time_to_merge_since_ready pr_backwards SAMPLE_INSTANT
           (SAMPLE_INSTANT + timedelta_days 1) used_world H1 H2 eq_refl).
Defined.

Lemma measure_time_to_merge_since_created_witness :
  valid_datetime (SAMPLE_INSTANT + timedelta_days 2) /\
  valid_datetime (created_at pr_two_days) /\
  measure_time_to_merge pr_two_days None used_world =
    (used_world, Ok (Some (SAMPLE_INSTANT + timedelta_days 2 - created_at pr_two_days))).
Proof.
  assert (H1 : valid_datetime (SAMPLE_INSTANT + timedelta_days 2)) by valid_sample.
  assert (H2 : valid_datetime (created_at pr_two_days)) by valid_sample.
  split; [exact H1|]. split; [exact H2|].
  exact (measure_time_to_merge_since_created pr_two_days
           (SAMPLE_INSTANT + timedelta_days 2) used_world H1 H2 eq_refl).
Defined.

Lemma measure_time_to_merge_not_merged_witness :
  merged_at pr_unmerged = None /\
  measure_time_to_merge pr_unmerged (Some SAMPLE_INSTANT) used_world = (used_world, Ok None) /\
  measure_time_to_merge pr_unmerged None used_world = (used_world, Ok None).
Proof.
  split; [reflexivity|]. split.
  - exact (measure_time_to_merge_not_merged pr_unmerged (Some SAMPLE_INSTANT) used_world eq_refl).
  - exact (measure_time_to_merge_not_merged pr_unmerged None used_world eq_refl).
Defined.

Lemma measure_time_to_merge_deterministic_witness :
  snd (measure_time_to_merge pr_two_days (Some SAMPLE_INSTANT) empty_world) =
    snd (measure_time_to_merge pr_two_days_again (Some SAMPLE_INSTANT) used_world) /\
  fst (measure_time_to_merge pr_two_days (Some SAMPLE_INSTANT) empty_world) = empty_world /\
  fst (measure_time_to_merge pr_two_days_again (Some SAMPLE_INSTANT) used_world) = used_world.
Proof.
  exact (measure_time_to_merge_deterministic pr_two_days pr_two_days_again
           (Some SAMPLE_INSTANT) (Some SAMPLE_INSTANT) empty_world used_world
           eq_refl eq_refl eq_refl).
Defined.

(** The draft sample, created at the sample instant, updated a day later,
    merged two days after that, met in the middle of a run. *)
Lemma ready_for_review_follows_draft_flag_witness :
  ready_for_review_at pr_draft = SAMPLE_INSTANT + timedelta_days 1 /\
  measure_time_to_merge pr_draft (Some (ready_for_review_at pr_draft)) empty_world =
    (empty_world, Ok (Some (timedelta_days 2))) /\
  loop_body pr_draft sample_locals empty_world =
    (empty_world,
     Ok {| prs_with_metrics :=
             [metric_of pr_two_days;
              {| metric_pr := 6;
                 metric_ready_for_review_at := SAMPLE_INSTANT + timedelta_days 1;
                 metric_merged_at := Some (SAMPLE_INSTANT + timedelta_days 3);
                 metric_time_to_merge := timedelta_days 2 |}];
           total_time_to_merge := timedelta_days 4;
           count := 2 |}) /\
  aggregate [pr_draft] empty_world =
    (empty_world,
     Ok ([{| metric_pr := 6;
             metric_ready_for_review_at := SAMPLE_INSTANT + timedelta_days 1;
             metric_merged_at := Some (SAMPLE_INSTANT + timedelta_days 3);
             metric_time_to_merge := timedelta_days 2 |}],
         timedelta_days 2, 1)).
Proof.
  assert (H0 : valid_datetime SAMPLE_INSTANT) by valid_sample.
  assert (H1 : valid_datetime (SAMPLE_INSTANT + timedelta_days 1)) by valid_sample.
  assert (H2 : valid_datetime (SAMPLE_INSTANT + timedelta_days 3)) by valid_sample.
  destruct (ready_for_review_follows_draft_flag 6 SAMPLE_INSTANT
              (SAMPLE_INSTANT + timedelta_days 1) (SAMPLE_INSTANT + timedelta_days 3)
              true sample_locals empty_world H0 H1 H2)
    as (_ & _ & _ & _ & Hready & Hcall & Hloop & Hrow).
  split; [exact Hready|]. split; [exact Hcall|]. split.
  - apply Hloop; vm_compute; discriminate.
  - apply Hrow. vm_compute. discriminate.
Defined.

Lemma no_merged_record_average_zero_witness :
  Forall (fun pr => merged_at pr = None) (closed_pull_requests unmerged_repository) /\
  aggregate (closed_pull_requests unmerged_repository) empty_world =
    (empty_world, Ok ([], timedelta_zero, 0)).
Proof.
  assert (H : Forall (fun pr => merged_at pr = None)
                (closed_pull_requests unmerged_repository))
    by (repeat constructor).
  split; [exact H|].
  exact (proj1 (no_merged_record_average_zero sample_str_datetime sample_str_timedelta
                  unmerged_repository empty_world H)).
Defined.

Lemma report_rows_follow_input_order_witness :
  durations_fit (closed_pull_requests sample_repository) /\
  exists w' average n,
    aggregate sample_pull_requests empty_world =
      (empty_world, Ok (map metric_of [pr_draft; pr_backwards; pr_two_days], average, n)) /\
    main sample_str_datetime sample_str_timedelta sample_repository empty_world = (w', Ok tt) /\
    report_of w' =
      Some (header_lines ++
            map (row_line sample_str_datetime sample_str_timedelta)
                (map metric_of [pr_draft; pr_backwards; pr_two_days]) ++
            [average_line sample_str_timedelta average;
             open_prs_line 2;
             closed_prs_line n]) /\
    [pr_draft; pr_backwards; pr_two_days] `sublist_of` sample_pull_requests.
Proof.
  assert (H : durations_fit (closed_pull_requests sample_repository))
    by apply durations_fit_samples.
  split; [exact H|].
  exact (report_rows_follow_input_order sample_str_datetime sample_str_timedelta
           sample_repository empty_world H).
Defined.

Lemma emitted_metrics_measure_since_ready_witness :
  aggregate sample_pull_requests empty_world =
    (empty_world,
     Ok (map metric_of [pr_draft; pr_backwards; pr_two_days], timedelta_days 1, 3)) /\
  Forall measures_since_ready (map metric_of [pr_draft; pr_backwards; pr_two_days]) /\
  for_each (loop_body_with measure_time_to_merge_without_fallback)
           sample_pull_requests sample_locals used_world =
    for_each loop_body sample_pull_requests sample_locals used_world /\
  Forall (fun pr => return_site pr (Some (ready_for_review_at pr)) <> ReturnSinceCreated)
         sample_pull_requests.
Proof.
  assert (H : aggregate sample_pull_requests empty_world =
                (empty_world,
                 Ok (map metric_of [pr_draft; pr_backwards; pr_two_days], timedelta_days 1, 3)))
    by (vm_compute; reflexivity).
  destruct (emitted_metrics_measure_since_ready sample_pull_requests empty_world empty_world
              _ _ _ H) as (Hrows & _ & Hdead & _ & Hsites).
  split; [exact H|]. split; [exact Hrows|]. split; [|exact Hsites].
  apply (Hdead measure_time_to_merge_without_fallback).
  intros p ready w0. reflexivity.
Defined.

(** * Further properties of the code *)

(** ** Every way a run can end *)

Lemma mk_timedelta_outcome us w :
  mk_timedelta us w =
    (w, if timedelta_in_range us then Ok us else Raise OverflowError).
Proof. unfold mk_timedelta. destruct (timedelta_in_range us); reflexivity. Qed.

Lemma emitted_false_duration pr : emitted pr = false -> duration pr = 0.
Proof.
  unfold emitted, timedelta_bool, duration, is_merged.
  destruct (merged_at pr); cbn [andb]; [|reflexivity].
  intros E. apply negb_false_iff, Z.eqb_eq in E. exact E.
Qed.

(** One iteration either updates the locals as [emitted] says or raises
    [OverflowError]; the world is the same after it in both cases. *)
Lemma loop_body_outcome pr st w :
  loop_body pr st w =
    (w, Ok (if emitted pr
            then {| prs_with_metrics := prs_with_metrics st ++ [metric_of pr];
                    total_time_to_merge := total_time_to_merge st + duration pr;
                    count := count st + 1 |}
            else st)) \/
  loop_body pr st w = (w, Raise OverflowError).
Proof.
  remember (loop_body pr st w) as run eqn:Hrun.
  unfold loop_body, measure_time_to_merge, measure_time_to_merge_at in Hrun.
  unfold emitted, metric_of, duration, is_merged.
  destruct (merged_at pr) as [merged|]; cbn [snd andb] in *; [|left; exact Hrun].
  unfold bind at 1 in Hrun. unfold bind at 1 in Hrun. unfold datetime_sub in Hrun.
  rewrite mk_timedelta_outcome in Hrun.
  destruct (timedelta_in_range (merged - ready_for_review_at pr)); [|right; exact Hrun].
  unfold ret at 1 in Hrun.
  destruct (timedelta_bool (merged - ready_for_review_at pr)); [|left; exact Hrun].
  unfold bind, timedelta_add in Hrun. rewrite mk_timedelta_outcome in Hrun.
  destruct (timedelta_in_range _); [left | right]; exact Hrun.
Qed.

Lemma for_each_loop_body_outcome prs : forall st w,
  for_each loop_body prs st w =
    (w, Ok {| prs_with_metrics :=
                prs_with_metrics st ++ map metric_of (emitted_records prs);
              total_time_to_merge :=
                total_time_to_merge st + sum_durations (emitted_records prs);
              count := count st + Z.of_nat (length (emitted_records prs)) |}) \/
  for_each loop_body prs st w = (w, Raise OverflowError).
Proof.
  induction prs as [|pr prs IH]; intros st w.
  - left. destruct st as [rows total n]. cbn.
    rewrite app_nil_r, !Z.add_0_r. reflexivity.
  - remember (for_each loop_body (pr :: prs) st w) as run eqn:Hrun.
    cbn [for_each] in Hrun. unfold bind at 1 in Hrun.
    destruct (loop_body_outcome pr st w) as [E | E]; rewrite E in Hrun;
      [|right; exact Hrun].
    rewrite emitted_records_cons.
    destruct (emitted pr) eqn:Em.
    + destruct (IH {| prs_with_metrics := prs_with_metrics st ++ [metric_of pr];
                      total_time_to_merge := total_time_to_merge st + duration pr;
                      count := count st + 1 |} w) as [E' | E'];
        rewrite E' in Hrun; [left | right; exact Hrun].
      rewrite Hrun, sum_durations_cons.
      cbn [prs_with_metrics total_time_to_merge count map length].
      rewrite <- app_assoc. cbn [app].
      do 3 f_equal; lia.
    + destruct (IH st w) as [E' | E']; rewrite E' in Hrun; [left | right]; exact Hrun.
Qed.

Lemma divide_and_round_range a b :
  0 < b -> Z.abs a <= TIMEDELTA_MAX_DAYS * US_PER_DAY ->
  timedelta_in_range (divide_and_round a b) = true.
Proof.
  intros Hb Ha. pose proof (divide_and_round_bounds a b Hb).
  unfold timedelta_in_range. apply andb_true_iff. split; apply Z.leb_le;
    unfold timedelta_min, timedelta_max, TIMEDELTA_MAX_DAYS, US_PER_DAY in *; lia.
Qed.

(** The aggregation either returns [aggregate_value] or raises
    [OverflowError]; it leaves the world alone. *)
Lemma aggregate_outcome prs w :
  aggregate prs w = (w, Ok (aggregate_value prs)) \/
  aggregate prs w = (w, Raise OverflowError).
Proof.
  remember (aggregate prs w) as run eqn:Hrun.
  unfold aggregate in Hrun. unfold bind at 1 in Hrun.
  destruct (for_each_loop_body_outcome prs initial_locals w) as [E | E];
    rewrite E in Hrun; [|right; exact Hrun].
  cbn [prs_with_metrics total_time_to_merge count initial_locals app] in Hrun.
  unfold timedelta_zero at 1 in Hrun. unfold timedelta_zero at 1 in Hrun.
  rewrite !Z.add_0_l in Hrun.
  unfold aggregate_value, code_average.
  destruct (0 <? Z.of_nat (length (emitted_records prs))) eqn:Hpos; [|left; exact Hrun].
  unfold bind, timedelta_div in Hrun.
  destruct (Z.of_nat (length (emitted_records prs)) =? 0) eqn:E0.
  - apply Z.ltb_lt in Hpos. apply Z.eqb_eq in E0. lia.
  - rewrite mk_timedelta_outcome in Hrun.
    destruct (timedelta_in_range _); [left | right]; exact Hrun.
Qed.

Lemma aggregate_returns prs w w' v :
  aggregate prs w = (w', Ok v) -> w' = w /\ v = aggregate_value prs.
Proof.
  intros H. destruct (aggregate_outcome prs w) as [E | E]; rewrite E in H.
  - inversion H. auto.
  - discriminate.
Qed.

Lemma sum_time_to_merge_metric_of prs :
  sum_time_to_merge (map metric_of prs) = sum_durations prs.
Proof.
  induction prs as [|pr prs IH]; [reflexivity|].
  rewrite sum_durations_cons, <- IH. reflexivity.
Qed.

Lemma emitted_true_inv pr :
  emitted pr = true -> is_Some (merged_at pr) /\ duration pr <> 0.
Proof.
  unfold emitted, timedelta_bool, is_merged.
  destruct (merged_at pr) as [merged|] eqn:Hm; cbn [andb]; [|discriminate].
  intros E. apply negb_true_iff, Z.eqb_neq in E. split; [eauto | exact E].
Qed.

Lemma emitted_records_emitted prs :
  Forall (fun pr => emitted pr = true) (emitted_records prs).
Proof.
  apply Forall_forall. intros pr Hin. unfold emitted_records in Hin.
  apply list_elem_of_filter in Hin. tauto.
Qed.

(** ** The calculator, further *)

(** X1: for a record that is not a draft, the call the loop makes gives what
    the calculator gives when no ready-for-review timestamp is supplied:
    passing [created_at] and passing [None] end in the same result, be it a
    duration, [None] or an exception. *)
Theorem loop_call_matches_fallback_for_non_draft (pr : PullRequest) (w : World) :
  draft pr = false ->
  measure_time_to_merge pr (Some (ready_for_review_at pr)) w =
    measure_time_to_merge pr None w.
Proof.
  intros Hd. unfold ready_for_review_at. rewrite Hd. cbn [negb].
  unfold measure_time_to_merge, measure_time_to_merge_at.
  destruct (merged_at pr); reflexivity.
Qed.

(** X2: on a well-formed record and a well-formed optional timestamp the
    calculator always returns normally, and it returns [None] exactly when
    the record has no merge timestamp: a zero duration is a duration, not
    [None]. *)
Theorem measure_time_to_merge_none_iff_unmerged
    (pr : PullRequest) (ready : option datetime) (w : World) :
  valid_pull_request pr ->
  (forall d, ready = Some d -> valid_datetime d) ->
  exists r,
    measure_time_to_merge pr ready w = (w, Ok r) /\
    (r = None <-> merged_at pr = None).
Proof.
  intros (Hc & Hu & Hm) Hr.
  destruct (merged_at pr) as [merged|] eqn:E.
  - specialize (Hm merged eq_refl).
    destruct ready as [d|].
    + exists (Some (merged - d)). split; [|split; discriminate].
      apply measure_time_to_merge_from_ready_valid; auto.
    + exists (Some (merged - created_at pr)). split; [|split; discriminate].
      unfold measure_time_to_merge, measure_time_to_merge_at. rewrite E. cbn [snd].
      unfold bind. rewrite (datetime_sub_valid merged (created_at pr) w Hm Hc).
      reflexivity.
  - exists None. split; [|tauto].
    unfold measure_time_to_merge, measure_time_to_merge_at. rewrite E. reflexivity.
Qed.

(** ** The loop, further *)

(** X3: an iteration on a record that is unmerged, or merged at the very
    instant it became ready for review, changes nothing: no row, the same
    total, the same count, whatever the locals hold. *)
Theorem loop_body_skips_unmerged_and_instant
    (pr : PullRequest) (st : Locals) (w : World) :
  merged_at pr = None \/ merged_at pr = Some (ready_for_review_at pr) ->
  loop_body pr st w = (w, Ok st).
Proof.
  intros H. unfold loop_body, measure_time_to_merge, measure_time_to_merge_at.
  destruct H as [-> | ->]; cbn [snd]; [reflexivity|].
  unfold bind, datetime_sub. rewrite Z.sub_diag. reflexivity.
Qed.

Lemma loop_body_skips pr st w : emitted pr = false -> loop_body pr st w = (w, Ok st).
Proof.
  intros E. destruct (loop_body_outcome pr st w) as [H | H].
  - rewrite E in H. exact H.
  - exfalso. revert H. unfold loop_body, measure_time_to_merge, measure_time_to_merge_at.
    pose proof (emitted_false_duration pr E) as Hd.
    unfold emitted, duration, is_merged in *.
    destruct (merged_at pr) as [merged|]; cbn [snd andb] in *; [|discriminate].
    unfold bind, datetime_sub. rewrite Hd. cbn. discriminate.
Qed.

(** X4: whenever the aggregation returns, what it returns is consistent:
    the count is the number of rows, the average is the sum of the rows'
    durations divided by that count and rounded ([timedelta(0)] when there
    is no row), and the world is as before. *)
Theorem aggregate_result_consistent
    (prs : list PullRequest) (w w' : World)
    (metrics : list MetricResult) (average : timedelta) (n : Z) :
  aggregate prs w = (w', Ok (metrics, average, n)) ->
  w' = w /\
  n = Z.of_nat (length metrics) /\
  average = (if 0 <? n then divide_and_round (sum_time_to_merge metrics) n
             else timedelta_zero).
Proof.
  intros H. apply aggregate_returns in H as [-> Hv].
  unfold aggregate_value in Hv. inversion Hv; subst. clear Hv.
  split; [reflexivity|]. split; [rewrite length_map; reflexivity|].
  rewrite sum_time_to_merge_metric_of. reflexivity.
Qed.

(** X5: no row the aggregation returns shows a zero duration or lacks a
    merge timestamp, and every row repeats the number of a record of the
    input. *)
Theorem aggregate_rows_merged_and_nonzero
    (prs : list PullRequest) (w w' : World)
    (metrics : list MetricResult) (average : timedelta) (n : Z) :
  aggregate prs w = (w', Ok (metrics, average, n)) ->
  Forall (fun m => metric_time_to_merge m <> 0 /\
                   is_Some (metric_merged_at m) /\
                   metric_pr m ∈ map number prs) metrics.
Proof.
  intros H. apply aggregate_returns in H as [-> Hv].
  unfold aggregate_value in Hv. inversion Hv; subst. clear Hv.
  apply Forall_forall. intros m Hin.
  apply list_elem_of_fmap in Hin as (pr & -> & Hin).
  unfold emitted_records in Hin. apply list_elem_of_filter in Hin as [Hem Hin].
  apply emitted_true_inv in Hem as [Hm Hd].
  cbn [metric_of metric_time_to_merge metric_merged_at metric_pr].
  split; [exact Hd|]. split; [exact Hm|].
  apply list_elem_of_fmap. exists pr. auto.
Qed.

(** X6: the aggregation never raises [ZeroDivisionError], for any input,
    and never touches the files or the standard output, whether it returns
    or raises. *)
Theorem aggregate_never_divides_by_zero (prs : list PullRequest) (w : World) :
  snd (aggregate prs w) <> Raise ZeroDivisionError /\
  fst (aggregate prs w) = w.
Proof.
  destruct (aggregate_outcome prs w) as [-> | ->]; split; cbn; congruence.
Qed.

(** X7: records that the loop skips have no effect on the aggregation:
    with the unmerged records and those of zero duration taken out of the
    input, it ends in the same way, value or exception. *)
Theorem aggregate_ignores_skipped_records (prs : list PullRequest) (w : World) :
  aggregate (emitted_records prs) w = aggregate prs w.
Proof.
  unfold aggregate.
  assert (Hloop : forall st,
            for_each loop_body (emitted_records prs) st w =
            for_each loop_body prs st w).
  { induction prs as [|pr prs IH]; intros st; [reflexivity|].
    rewrite emitted_records_cons. destruct (emitted pr) eqn:E.
    - cbn [for_each]. unfold bind.
      destruct (loop_body_outcome pr st w) as [-> | ->]; [|reflexivity].
      apply IH.
    - cbn [for_each]. unfold bind. rewrite (loop_body_skips pr st w E). apply IH. }
  unfold bind at 1. unfold bind at 3. rewrite Hloop. reflexivity.
Qed.

(** ** The report writer, further *)

(** X8: a call of [generate_report] that completes has replaced whatever
    [pr_metrics.md] held by the header, one line per row in order and the
    three closing lines, has left every other file as it was, and has
    printed one confirmation line. *)
Theorem generate_report_overwrites_only_the_report
    (str_datetime : datetime -> string) (str_timedelta : timedelta -> string)
    (metrics : list MetricResult) (average : timedelta) (total_open_prs n : Z)
    (w : World) :
  let run := generate_report str_datetime str_timedelta metrics average total_open_prs n w in
  snd run = Ok tt ->
  report_of (fst run) =
    Some (report_lines str_datetime str_timedelta metrics average total_open_prs n) /\
  length (report_lines str_datetime str_timedelta metrics average total_open_prs n) =
    (length metrics + 6)%nat /\
  delete REPORT_FILE (files (fst run)) = delete REPORT_FILE (files w) /\
  stdout (fst run) = stdout w ++ ["Wrote PR metrics to pr_metrics.md"].
Proof.
  intros run _. subst run. rewrite generate_report_writes. cbn [fst snd files stdout].
  split; [unfold report_of; cbn [files]; apply lookup_insert_eq|].
  split.
  - unfold report_lines, header_lines. rewrite !length_app, length_map. cbn [length]. lia.
  - split; [apply delete_insert_eq | reflexivity].
Qed.

(** X9: of two reports written one after the other only the second stays
    in the file: nothing of the first is left, and each call has printed
    its confirmation line. *)
Theorem generate_report_twice_keeps_the_last
    (str_datetime : datetime -> string) (str_timedelta : timedelta -> string)
    (metrics1 metrics2 : list MetricResult) (average1 average2 : timedelta)
    (open1 open2 n1 n2 : Z) (w : World) :
  let run :=
    (generate_report str_datetime str_timedelta metrics1 average1 open1 n1 ;;
     generate_report str_datetime str_timedelta metrics2 average2 open2 n2) w in
  snd run = Ok tt /\
  files (fst run) =
    files (fst (generate_report str_datetime str_timedelta metrics2 average2 open2 n2 w)) /\
  stdout (fst run) =
    stdout w ++ ["Wrote PR metrics to pr_metrics.md"; "Wrote PR metrics to pr_metrics.md"].
Proof.
  intros run. subst run. unfold bind.
  rewrite (generate_report_writes _ _ metrics1), !generate_report_writes.
  cbn [fst snd files stdout].
  split; [reflexivity|]. split; [apply insert_insert_eq|].
  rewrite <- app_assoc. reflexivity.
Qed.

(** ** [main], further *)

Lemma main_outcome
    (str_datetime : datetime -> string) (str_timedelta : timedelta -> string)
    (repo : Repository) (w : World) :
  main str_datetime str_timedelta repo w =
    (mkWorld
       (<[REPORT_FILE :=
            report_lines str_datetime str_timedelta
              (map metric_of (emitted_records (closed_pull_requests repo)))
              (code_average (closed_pull_requests repo))
              (open_pull_requests_count repo)
              (Z.of_nat (length (emitted_records (closed_pull_requests repo))))]>
          (files w))
       (stdout w ++ ["Wrote PR metrics to pr_metrics.md"]),
     Ok tt) \/
  main str_datetime str_timedelta repo w = (w, Raise OverflowError).
Proof.
  remember (main str_datetime str_timedelta repo w) as run eqn:Hrun.
  unfold main, fetch_pull_requests in Hrun. unfold bind at 1 in Hrun.
  destruct (aggregate_outcome (closed_pull_requests repo) w) as [E | E];
    rewrite E in Hrun; [left | right; exact Hrun].
  unfold aggregate_value in Hrun. rewrite generate_report_writes in Hrun. exact Hrun.
Qed.

(** X10: an overflow leaves no partial report.  When [main] raises
    [OverflowError], the exception comes from the aggregation and is raised
    before [generate_report] is called: no file has been created, emptied or
    changed, and nothing has been printed. *)
Theorem main_overflow_writes_nothing
    (str_datetime : datetime -> string) (str_timedelta : timedelta -> string)
    (repo : Repository) (w : World) :
  snd (main str_datetime str_timedelta repo w) = Raise OverflowError ->
  snd (aggregate (closed_pull_requests repo) w) = Raise OverflowError /\
  fst (main str_datetime str_timedelta repo w) = w.
Proof.
  destruct (aggregate_outcome (closed_pull_requests repo) w) as [E | E].
  - assert (Hmain : snd (main str_datetime str_timedelta repo w) = Ok tt).
    { unfold main, fetch_pull_requests, bind. rewrite E. unfold aggregate_value.
      rewrite generate_report_writes. reflexivity. }
    rewrite Hmain. discriminate.
  - intros _. rewrite E. split; [reflexivity|].
    unfold main, fetch_pull_requests, bind. rewrite E. reflexivity.
Qed.

(** ** The average as a rounded mean *)

Lemma divide_and_round_nearest a b :
  0 < b ->
  Z.abs (2 * (a - b * divide_and_round a b)) <= b /\
  (Z.abs (2 * (a - b * divide_and_round a b)) = b ->
   divide_and_round a b mod 2 = 0).
Proof.
  intros Hb. unfold divide_and_round.
  pose proof (Z.div_mod a b ltac:(lia)) as Hdm.
  pose proof (Z.mod_pos_bound a b Hb) as Hr.
  set (q := a / b) in *. set (r := a mod b) in *.
  apply Z.ltb_lt in Hb as Hb'. rewrite Hb'.
  pose proof (Z.mod_pos_bound q 2 ltac:(lia)) as Hq2.
  assert (Hsucc : q mod 2 = 1 -> (q + 1) mod 2 = 0).
  { intros Hodd. rewrite Z.add_mod, Hodd by lia. reflexivity. }
  destruct (b <? 2 * r) eqn:E1; cbn [orb].
  - apply Z.ltb_lt in E1. split; [lia|]. intros Habs. lia.
  - apply Z.ltb_ge in E1.
    destruct (2 * r =? b) eqn:E2; cbn [andb].
    + apply Z.eqb_eq in E2.
      destruct (q mod 2 =? 1) eqn:E3.
      * apply Z.eqb_eq in E3. split; [lia|]. intros _. apply Hsucc. exact E3.
      * apply Z.eqb_neq in E3. split; [lia|]. intros _. lia.
    + apply Z.eqb_neq in E2. split; [lia|]. intros Habs. lia.
Qed.

Lemma divide_and_round_between a b lo hi :
  0 < b -> b * lo <= a <= b * hi -> lo <= divide_and_round a b <= hi.
Proof.
  intros Hb [Hlo Hhi]. unfold divide_and_round.
  pose proof (Z.div_mod a b ltac:(lia)) as Hdm.
  pose proof (Z.mod_pos_bound a b Hb) as Hr.
  set (q := a / b) in *. set (r := a mod b) in *.
  apply Z.ltb_lt in Hb as Hb'. rewrite Hb'.
  assert (Hq : lo <= q) by nia.
  assert (Hq' : q <= hi) by nia.
  destruct (b <? 2 * r) eqn:E1; cbn [orb].
  - apply Z.ltb_lt in E1. split; [lia|]. nia.
  - destruct (2 * r =? b) eqn:E2; cbn [andb]; [|lia].
    apply Z.eqb_eq in E2. destruct (q mod 2 =? 1); [|lia].
    split; [lia|]. nia.
Qed.

Lemma sum_time_to_merge_between lo hi metrics :
  Forall (fun m => lo <= metric_time_to_merge m <= hi) metrics ->
  Z.of_nat (length metrics) * lo <= sum_time_to_merge metrics
    <= Z.of_nat (length metrics) * hi.
Proof.
  induction 1 as [|m metrics Hm Hall IH]; [cbn; lia|].
  change (sum_time_to_merge (m :: metrics))
    with (metric_time_to_merge m + sum_time_to_merge metrics).
  cbn [length]. lia.
Qed.

(** X11: the average lies between the shortest and the longest duration
    shown in the rows: rounding never takes it outside. *)
Theorem average_between_extremes
    (prs : list PullRequest) (w w' : World)
    (metrics : list MetricResult) (average : timedelta) (n : Z) (lo hi : timedelta) :
  aggregate prs w = (w', Ok (metrics, average, n)) ->
  metrics <> [] ->
  Forall (fun m => lo <= metric_time_to_merge m <= hi) metrics ->
  lo <= average <= hi.
Proof.
  intros H Hne Hall. apply aggregate_returns in H as [-> Hv].
  unfold aggregate_value in Hv. inversion Hv; subst. clear Hv.
  unfold code_average. rewrite <- sum_time_to_merge_metric_of.
  pose proof (sum_time_to_merge_between lo hi _ Hall) as Hsum.
  rewrite length_map in Hsum.
  destruct (emitted_records prs) as [|pr rest] eqn:E; [contradiction Hne; reflexivity|].
  assert (Hpos : 0 < Z.of_nat (length (pr :: rest))) by (cbn [length]; lia).
  apply Z.ltb_lt in Hpos as Hpos'. rewrite Hpos'.
  apply divide_and_round_between; [exact Hpos | exact Hsum].
Qed.

(** X12: the average is the mean of the rows' durations rounded to the
    nearest microsecond: count times average differs from their sum by at
    most half the count, and on an exact tie the average is the even
    neighbour. *)
Theorem average_is_nearest_microsecond
    (prs : list PullRequest) (w w' : World)
    (metrics : list MetricResult) (average : timedelta) (n : Z) :
  aggregate prs w = (w', Ok (metrics, average, n)) ->
  Z.abs (2 * (sum_time_to_merge metrics - n * average)) <= n /\
  (Z.abs (2 * (sum_time_to_merge metrics - n * average)) = n -> average mod 2 = 0).
Proof.
  intros H. apply aggregate_returns in H as [-> Hv].
  unfold aggregate_value in Hv. inversion Hv; subst. clear Hv.
  rewrite sum_time_to_merge_metric_of. unfold code_average.
  destruct (0 <? Z.of_nat (length (emitted_records prs))) eqn:E.
  - apply Z.ltb_lt in E. apply divide_and_round_nearest. exact E.
  - apply Z.ltb_ge in E.
    destruct (emitted_records prs); [|cbn [length] in E; lia].
    cbn. split; [lia | reflexivity].
Qed.

(** X13: when no record of the input was merged before it became ready for
    review, every duration in the rows is positive and so is the average,
    unless there is no row at all, in which case it is zero. *)
Theorem durations_positive_when_merged_after_ready
    (prs : list PullRequest) (w w' : World)
    (metrics : list MetricResult) (average : timedelta) (n : Z) :
  aggregate prs w = (w', Ok (metrics, average, n)) ->
  Forall (fun pr => forall merged, merged_at pr = Some merged ->
                                   ready_for_review_at pr <= merged) prs ->
  Forall (fun m => 0 < metric_time_to_merge m) metrics /\
  (metrics = [] -> average = 0) /\
  (metrics <> [] -> 0 < average).
Proof.
  intros H Hord. apply aggregate_returns in H as [-> Hv].
  unfold aggregate_value in Hv. inversion Hv; subst. clear Hv.
  assert (Hrows : Forall (fun m => 1 <= metric_time_to_merge m <= Z.max 1 (total_abs_duration prs))
                    (map metric_of (emitted_records prs))).
  { apply Forall_forall. intros m Hin.
    apply list_elem_of_fmap in Hin as (pr & -> & Hin).
    unfold emitted_records in Hin. apply list_elem_of_filter in Hin as [Hem Hin].
    apply emitted_true_inv in Hem as [[merged Hm] Hd].
    rewrite Forall_forall in Hord. specialize (Hord pr Hin merged Hm).
    cbn [metric_of metric_time_to_merge].
    assert (Hle : Z.abs (duration pr) <= total_abs_duration prs).
    { clear -Hin. induction prs as [|p prs IH]; [inversion Hin|].
      rewrite total_abs_duration_cons. pose proof (total_abs_duration_nonneg prs).
      apply elem_of_cons in Hin as [-> | Hin]; [lia|]. specialize (IH Hin). lia. }
    unfold duration in *. rewrite Hm in *. lia. }
  split; [|split].
  - eapply Forall_impl; [exact Hrows|]. cbn. intros m Hm. lia.
  - intros Hnil. unfold code_average.
    destruct (emitted_records prs); [reflexivity | discriminate].
  - intros Hne. unfold code_average. rewrite <- sum_time_to_merge_metric_of.
    pose proof (sum_time_to_merge_between _ _ _ Hrows) as Hsum.
    rewrite length_map in Hsum.
    destruct (emitted_records prs) as [|pr rest] eqn:E; [contradiction Hne; reflexivity|].
    assert (Hpos : 0 < Z.of_nat (length (pr :: rest))) by (cbn [length]; lia).
    apply Z.ltb_lt in Hpos as Hpos'. rewrite Hpos'.
    pose proof (divide_and_round_between _ _ _ _ Hpos Hsum). lia.
Qed.

(** ** Overflow of the running total *)

(** X14: on at most 273 well-formed records no subtraction, sum or division
    can leave the range of [timedelta]: [main] returns normally and writes
    the complete report. *)
Theorem main_returns_up_to_273_records
    (str_datetime : datetime -> string) (str_timedelta : timedelta -> string)
    (repo : Repository) (w : World) :
  Forall valid_pull_request (closed_pull_requests repo) ->
  (length (closed_pull_requests repo) <= 273)%nat ->
  snd (main str_datetime str_timedelta repo w) = Ok tt /\
  snd (aggregate (closed_pull_requests repo) w) =
    Ok (aggregate_value (closed_pull_requests repo)) /\
  exists lines,
    report_of (fst (main str_datetime str_timedelta repo w)) = Some lines /\
    length lines = (length (emitted_records (closed_pull_requests repo)) + 6)%nat.
Proof.
  intros Hvalid Hlen.
  pose proof (valid_pull_requests_fit _ Hvalid Hlen) as Hfit.
  rewrite (main_fits str_datetime str_timedelta repo w Hfit).
  rewrite (aggregate_fits _ w Hfit).
  split; [reflexivity|]. split; [reflexivity|].
  eexists. split.
  - unfold report_of. cbn [fst files]. apply lookup_insert_eq.
  - unfold header_lines. rewrite !length_app, !length_map. cbn [length]. lia.
Qed.

Lemma loop_body_emitted pr st w :
  emitted pr = true -> timedelta_in_range (duration pr) = true ->
  loop_body pr st w =
    (w, if timedelta_in_range (total_time_to_merge st + duration pr)
        then Ok {| prs_with_metrics := prs_with_metrics st ++ [metric_of pr];
                   total_time_to_merge := total_time_to_merge st + duration pr;
                   count := count st + 1 |}
        else Raise OverflowError).
Proof.
  unfold emitted, is_merged, metric_of, duration.
  unfold loop_body, measure_time_to_merge, measure_time_to_merge_at.
  destruct (merged_at pr) as [merged|]; cbn [snd andb]; [|discriminate].
  intros Hb Hr.
  unfold bind at 1. unfold bind at 1. unfold datetime_sub.
  rewrite mk_timedelta_outcome, Hr. unfold ret at 1. rewrite Hb.
  unfold bind, timedelta_add. rewrite mk_timedelta_outcome.
  destruct (timedelta_in_range
              (total_time_to_merge st + (merged - ready_for_review_at pr)));
    reflexivity.
Qed.

Lemma duration_pr_widest : duration pr_widest = DATETIME_DAYS * US_PER_DAY - 1.
Proof. vm_compute. reflexivity. Qed.

Lemma pr_widest_emitted :
  emitted pr_widest = true /\ timedelta_in_range (duration pr_widest) = true.
Proof. split; vm_compute; reflexivity. Qed.

Lemma for_each_widest_overflows k : forall st w,
  0 <= total_time_to_merge st <= timedelta_max ->
  timedelta_max < total_time_to_merge st + Z.of_nat k * duration pr_widest ->
  for_each loop_body (widest_pull_requests k) st w = (w, Raise OverflowError).
Proof.
  pose proof duration_pr_widest as Hd.
  destruct pr_widest_emitted as [Hem Hrange].
  induction k as [|k IH]; intros st w Hst Hover.
  - lia.
  - unfold widest_pull_requests in *. rewrite replicate_S. cbn [for_each].
    unfold bind. rewrite (loop_body_emitted pr_widest st w Hem Hrange).
    destruct (timedelta_in_range (total_time_to_merge st + duration pr_widest)) eqn:E;
      [|reflexivity].
    apply IH; cbn [total_time_to_merge].
    + unfold timedelta_in_range in E. apply andb_true_iff in E as [_ E].
      apply Z.leb_le in E. rewrite Hd in *.
      unfold DATETIME_DAYS, US_PER_DAY in *. lia.
    + lia.
Qed.

(** X15: the bound of 273 is sharp.  A sequence of 274 or more well-formed
    records, each created at [datetime.min] and merged at [datetime.max],
    makes the running total overflow: the aggregation raises
    [OverflowError], so does [main], and no report is written. *)
Theorem widest_records_overflow
    (str_datetime : datetime -> string) (str_timedelta : timedelta -> string)
    (k : nat) (open_count : Z) (w : World) :
  (274 <= k)%nat ->
  Forall valid_pull_request (widest_pull_requests k) /\
  aggregate (widest_pull_requests k) w = (w, Raise OverflowError) /\
  main str_datetime str_timedelta
       {| closed_pull_requests := widest_pull_requests k;
          open_pull_requests_count := open_count |} w = (w, Raise OverflowError).
Proof.
  intros Hk.
  assert (Hagg : aggregate (widest_pull_requests k) w = (w, Raise OverflowError)).
  { unfold aggregate. unfold bind at 1.
    rewrite for_each_widest_overflows; [reflexivity | |].
    - cbn [initial_locals total_time_to_merge].
      unfold timedelta_zero, timedelta_max, TIMEDELTA_MAX_DAYS, US_PER_DAY. lia.
    - rewrite duration_pr_widest.
      cbn [initial_locals total_time_to_merge].
      unfold timedelta_zero, timedelta_max, TIMEDELTA_MAX_DAYS, DATETIME_DAYS, US_PER_DAY.
      lia. }
  split; [|split; [exact Hagg|]].
  - apply Forall_replicate. unfold valid_pull_request, valid_datetime.
    cbn [created_at updated_at merged_at pr_widest].
    unfold DATETIME_DAYS, US_PER_DAY.
    split; [lia|]. split; [lia|]. intros merged Hm. inversion Hm. lia.
  - unfold main, fetch_pull_requests. cbn [closed_pull_requests].
    unfold bind. rewrite Hagg. reflexivity.
Qed.

(** ** Order and composition *)

Lemma sum_durations_perm prs prs' :
  prs ≡ₚ prs' -> sum_durations prs = sum_durations prs'.
Proof.
  induction 1 as [|pr l l' Hp IH|p q l|l l' l'' Hp1 IH1 Hp2 IH2];
    rewrite ?sum_durations_cons; lia.
Qed.

Lemma total_abs_duration_perm prs prs' :
  prs ≡ₚ prs' -> total_abs_duration prs = total_abs_duration prs'.
Proof.
  induction 1 as [|pr l l' Hp IH|p q l|l l' l'' Hp1 IH1 Hp2 IH2];
    rewrite ?total_abs_duration_cons; lia.
Qed.

Lemma total_abs_duration_app prs1 prs2 :
  total_abs_duration (prs1 ++ prs2) = total_abs_duration prs1 + total_abs_duration prs2.
Proof.
  induction prs1 as [|pr prs1 IH]; [reflexivity|].
  cbn [app]. rewrite !total_abs_duration_cons, IH. lia.
Qed.

(** X16: the average and the count do not depend on the order in which the
    records arrive; only the order of the rows does.  For two orderings of
    the same records whose durations fit, the aggregation returns the same
    average and count, and rows that are a reordering of each other. *)
Theorem aggregate_average_order_independent
    (prs prs' : list PullRequest) (w : World) :
  durations_fit prs -> prs ≡ₚ prs' ->
  exists metrics metrics' average n,
    aggregate prs w = (w, Ok (metrics, average, n)) /\
    aggregate prs' w = (w, Ok (metrics', average, n)) /\
    metrics ≡ₚ metrics'.
Proof.
  intros Hfit Hp.
  assert (Hfit' : durations_fit prs').
  { unfold durations_fit in *. rewrite <- (total_abs_duration_perm _ _ Hp). exact Hfit. }
  assert (Hrows : emitted_records prs ≡ₚ emitted_records prs').
  { unfold emitted_records. rewrite Hp. reflexivity. }
  exists (map metric_of (emitted_records prs)), (map metric_of (emitted_records prs')),
         (code_average prs), (Z.of_nat (length (emitted_records prs))).
  split; [apply aggregate_fits; exact Hfit|]. split.
  - rewrite (aggregate_fits prs' w Hfit').
    unfold code_average.
    rewrite <- (sum_durations_perm _ _ Hrows), <- (Permutation_length Hrows).
    reflexivity.
  - apply fmap_Permutation. exact Hrows.
Qed.

(** X17: aggregating a sequence made of two parts gives the rows of the
    first part followed by the rows of the second, and the two counts
    added up. *)
Theorem aggregate_of_concatenation
    (prs1 prs2 : list PullRequest) (w : World) :
  durations_fit (prs1 ++ prs2) ->
  exists metrics1 metrics2 average1 average2 average n1 n2,
    aggregate prs1 w = (w, Ok (metrics1, average1, n1)) /\
    aggregate prs2 w = (w, Ok (metrics2, average2, n2)) /\
    aggregate (prs1 ++ prs2) w = (w, Ok (metrics1 ++ metrics2, average, n1 + n2)).
Proof.
  intros Hfit.
  assert (Hfit1 : durations_fit prs1 /\ durations_fit prs2).
  { unfold durations_fit in *. rewrite total_abs_duration_app in Hfit.
    pose proof (total_abs_duration_nonneg prs1).
    pose proof (total_abs_duration_nonneg prs2). lia. }
  destruct Hfit1 as [Hfit1 Hfit2].
  eexists _, _, _, _, _, _, _.
  split; [apply aggregate_fits; exact Hfit1|].
  split; [apply aggregate_fits; exact Hfit2|].
  rewrite (aggregate_fits _ w Hfit). unfold emitted_records.
  rewrite filter_app, map_app, length_app, Nat2Z.inj_add. reflexivity.
Qed.

(** ** The further properties at sample inputs *)

Lemma loop_call_matches_fallback_for_non_draft_witness :
  draft pr_two_days = false /\
  measure_time_to_merge pr_two_days (Some (ready_for_review_at pr_two_days)) used_world =
    measure_time_to_merge pr_two_days None used_world.
Proof.
  split; [reflexivity|].
  exact (loop_call_matches_fallback_for_non_draft pr_two_days used_world eq_refl).
Defined.

Lemma sample_pull_requests_valid : Forall valid_pull_request sample_pull_requests.
Proof. unfold sample_pull_requests. each_sample valid_sample_record. Qed.

(** A record merged at the instant it was created: the result is the zero
    duration, not [None]. *)
Lemma measure_time_to_merge_none_iff_unmerged_witness :
  valid_pull_request pr_instant /\
  exists r,
    measure_time_to_merge pr_instant (Some SAMPLE_INSTANT) used_world = (used_world, Ok r) /\
    (r = None <-> merged_at pr_instant = None).
Proof.
  assert (Hpr : valid_pull_request pr_instant) by valid_sample_record.
  split; [exact Hpr|].
  apply (measure_time_to_merge_none_iff_unmerged pr_instant (Some SAMPLE_INSTANT)
           used_world Hpr).
  intros d Hd. injection Hd as <-. valid_sample.
Defined.

Lemma loop_body_skips_unmerged_and_instant_witness :
  loop_body pr_instant sample_locals used_world = (used_world, Ok sample_locals) /\
  loop_body pr_unmerged sample_locals used_world = (used_world, Ok sample_locals).
Proof.
  split.
  - apply (loop_body_skips_unmerged_and_instant pr_instant sample_locals used_world).
    right. reflexivity.
  - apply (loop_body_skips_unmerged_and_instant pr_unmerged sample_locals used_world).
    left. reflexivity.
Defined.

Lemma aggregate_sample :
  aggregate sample_pull_requests empty_world =
    (empty_world,
     Ok (map metric_of [pr_draft; pr_backwards; pr_two_days], timedelta_days 1, 3)).
Proof. vm_compute. reflexivity. Qed.

Lemma aggregate_result_consistent_witness :
  3 = Z.of_nat (length (map metric_of [pr_draft; pr_backwards; pr_two_days])) /\
  timedelta_days 1 =
    (if 0 <? 3
     then divide_and_round
            (sum_time_to_merge (map metric_of [pr_draft; pr_backwards; pr_two_days])) 3
     else timedelta_zero).
Proof.
  exact (proj2 (aggregate_result_consistent sample_pull_requests empty_world empty_world
                  _ _ _ aggregate_sample)).
Defined.

Lemma aggregate_rows_merged_and_nonzero_witness :
  Forall (fun m => metric_time_to_merge m <> 0 /\
                   is_Some (metric_merged_at m) /\
                   metric_pr m ∈ map number sample_pull_requests)
         (map metric_of [pr_draft; pr_backwards; pr_two_days]).
Proof.
  exact (aggregate_rows_merged_and_nonzero sample_pull_requests empty_world empty_world
           _ _ _ aggregate_sample).
Defined.

Lemma aggregate_forward :
  aggregate forward_pull_requests empty_world =
    (empty_world, Ok (map metric_of [pr_draft; pr_two_days], timedelta_days 2, 2)).
Proof. vm_compute. reflexivity. Qed.

(** The sample rows last between minus one day and two days, and so does
    their average. *)
Lemma average_between_extremes_witness :
  - timedelta_days 1 <= timedelta_days 1 <= timedelta_days 2.
Proof.
  apply (average_between_extremes sample_pull_requests empty_world empty_world
           (map metric_of [pr_draft; pr_backwards; pr_two_days])
           (timedelta_days 1) 3 (- timedelta_days 1) (timedelta_days 2) aggregate_sample).
  - discriminate.
  - cbn [map]. each_sample ltac:(vm_compute; split; discriminate).
Defined.

Lemma aggregate_tie :
  aggregate [pr_one_microsecond; pr_two_microseconds] empty_world =
    (empty_world, Ok (map metric_of [pr_one_microsecond; pr_two_microseconds], 2, 2)).
Proof. vm_compute. reflexivity. Qed.

(** One and two microseconds: the mean is one and a half, the average two. *)
Lemma average_is_nearest_microsecond_witness :
  Z.abs (2 * (sum_time_to_merge (map metric_of [pr_one_microsecond; pr_two_microseconds])
              - 2 * 2)) <= 2 /\
  (Z.abs (2 * (sum_time_to_merge (map metric_of [pr_one_microsecond; pr_two_microseconds])
               - 2 * 2)) = 2 -> 2 mod 2 = 0).
Proof.
  exact (average_is_nearest_microsecond [pr_one_microsecond; pr_two_microseconds]
           empty_world empty_world _ _ _ aggregate_tie).
Defined.

Lemma durations_positive_when_merged_after_ready_witness :
  Forall (fun m => 0 < metric_time_to_merge m) (map metric_of [pr_draft; pr_two_days]) /\
  (map metric_of [pr_draft; pr_two_days] = [] -> timedelta_days 2 = 0) /\
  (map metric_of [pr_draft; pr_two_days] <> [] -> 0 < timedelta_days 2).
Proof.
  apply (durations_positive_when_merged_after_ready forward_pull_requests
           empty_world empty_world _ _ _ aggregate_forward).
  unfold forward_pull_requests.
  each_sample ltac:(intros merged Hm; vm_compute in Hm;
                    first [discriminate Hm | injection Hm as <-; vm_compute; discriminate]).
Defined.

Lemma main_returns_up_to_273_records_witness :
  snd (main sample_str_datetime sample_str_timedelta sample_repository empty_world) = Ok tt /\
  snd (aggregate (closed_pull_requests sample_repository) empty_world) =
    Ok (aggregate_value (closed_pull_requests sample_repository)) /\
  exists lines,
    report_of (fst (main sample_str_datetime sample_str_timedelta sample_repository
                      empty_world)) = Some lines /\
    length lines = (length (emitted_records (closed_pull_requests sample_repository)) + 6)%nat.
Proof.
  apply (main_returns_up_to_273_records sample_str_datetime sample_str_timedelta
           sample_repository empty_world sample_pull_requests_valid).
  vm_compute. lia.
Defined.

Lemma widest_records_overflow_witness :
  Forall valid_pull_request (widest_pull_requests 274) /\
  aggregate (widest_pull_requests 274) empty_world = (empty_world, Raise OverflowError) /\
  main sample_str_datetime sample_str_timedelta
       {| closed_pull_requests := widest_pull_requests 274;
          open_pull_requests_count := 0 |} empty_world = (empty_world, Raise OverflowError).
Proof.
  apply (widest_records_overflow sample_str_datetime sample_str_timedelta 274 0 empty_world).
  lia.
Defined.

Lemma aggregate_average_order_independent_witness :
  exists metrics metrics' average n,
    aggregate [pr_two_days; pr_four_days] empty_world = (empty_world, Ok (metrics, average, n)) /\
    aggregate [pr_four_days; pr_two_days] empty_world = (empty_world, Ok (metrics', average, n)) /\
    metrics ≡ₚ metrics'.
Proof.
  apply (aggregate_average_order_independent [pr_two_days; pr_four_days]
           [pr_four_days; pr_two_days] empty_world).
  - unfold durations_fit. vm_compute. discriminate.
  - apply perm_swap.
Defined.

Lemma aggregate_of_concatenation_witness :
  exists metrics1 metrics2 average1 average2 average n1 n2,
    aggregate [pr_unmerged; pr_draft] empty_world = (empty_world, Ok (metrics1, average1, n1)) /\
    aggregate [pr_instant; pr_backwards; pr_two_days] empty_world =
      (empty_world, Ok (metrics2, average2, n2)) /\
    aggregate ([pr_unmerged; pr_draft] ++ [pr_instant; pr_backwards; pr_two_days]) empty_world =
      (empty_world, Ok (metrics1 ++ metrics2, average, n1 + n2)).
Proof.
  apply (aggregate_of_concatenation [pr_unmerged; pr_draft]
           [pr_instant; pr_backwards; pr_two_days] empty_world).
  unfold durations_fit. vm_compute. discriminate.
Defined.

(** ** Where the lines of the report are *)

(** X18: in the file written by a call of [generate_report] that completes,
    the first three lines are the header, the row of the metric at index [i]
    is the line at index [i + 3], the average is the line after the last
    row, the last two lines are the open count and the closed count, and
    there are [rows + 6] lines in all. *)
Theorem report_lines_by_position
    (str_datetime : datetime -> string) (str_timedelta : timedelta -> string)
    (metrics : list MetricResult) (average : timedelta) (total_open_prs n : Z)
    (w : World) :
  let run := generate_report str_datetime str_timedelta metrics average total_open_prs n w in
  snd run = Ok tt ->
  exists lines,
    report_of (fst run) = Some lines /\
    length lines = (length metrics + 6)%nat /\
    take 3 lines = header_lines /\
    (forall i m, metrics !! i = Some m ->
                 lines !! (i + 3)%nat = Some (row_line str_datetime str_timedelta m)) /\
    lines !! (length metrics + 3)%nat = Some (average_line str_timedelta average) /\
    lines !! (length metrics + 4)%nat = Some (open_prs_line total_open_prs) /\
    lines !! (length metrics + 5)%nat = Some (closed_prs_line n).
Proof.
  intros run _. subst run. rewrite generate_report_writes. cbn [fst files].
  eexists. split; [unfold report_of; cbn [files]; apply lookup_insert_eq|].
  assert (Hh : length header_lines = 3%nat) by reflexivity.
  assert (Hr : length (map (row_line str_datetime str_timedelta) metrics) = length metrics)
    by apply length_map.
  split; [rewrite !length_app, Hh, Hr; cbn [length]; lia|].
  split; [reflexivity|].
  split; [|split; [|split]].
  - intros i m Hi.
    rewrite lookup_app_r by (rewrite Hh; lia). rewrite Hh.
    replace (i + 3 - 3)%nat with i by lia.
    rewrite lookup_app_l by (rewrite Hr; eapply lookup_lt_Some; exact Hi).
    rewrite list_lookup_fmap, Hi. reflexivity.
  - rewrite lookup_app_r by (rewrite Hh; lia). rewrite Hh.
    rewrite lookup_app_r by (rewrite Hr; lia). rewrite Hr.
    replace (length metrics + 3 - 3 - length metrics)%nat with 0%nat by lia. reflexivity.
  - rewrite lookup_app_r by (rewrite Hh; lia). rewrite Hh.
    rewrite lookup_app_r by (rewrite Hr; lia). rewrite Hr.
    replace (length metrics + 4 - 3 - length metrics)%nat with 1%nat by lia. reflexivity.
  - rewrite lookup_app_r by (rewrite Hh; lia). rewrite Hh.
    rewrite lookup_app_r by (rewrite Hr; lia). rewrite Hr.
    replace (length metrics + 5 - 3 - length metrics)%nat with 2%nat by lia. reflexivity.
Qed.

Lemma generate_report_sample_completes :
  snd (generate_report sample_str_datetime sample_str_timedelta
         (map metric_of [pr_draft; pr_backwards; pr_two_days]) (timedelta_days 1) 2 3
         stale_world) = Ok tt.
Proof. vm_compute. reflexivity. Qed.

Lemma report_lines_by_position_witness :
  exists lines,
    report_of (fst (generate_report sample_str_datetime sample_str_timedelta
                      (map metric_of [pr_draft; pr_backwards; pr_two_days])
                      (timedelta_days 1) 2 3 stale_world)) = Some lines /\
    lines !! 4%nat = Some (row_line sample_str_datetime sample_str_timedelta
                             (metric_of pr_backwards)) /\
    lines !! 8%nat = Some (closed_prs_line 3) /\
    length lines = 9%nat.
Proof.
  destruct (report_lines_by_position sample_str_datetime sample_str_timedelta
              (map metric_of [pr_draft; pr_backwards; pr_two_days])
              (timedelta_days 1) 2 3 stale_world generate_report_sample_completes)
    as (lines & Hfile & Hlen & _ & Hrows & _ & _ & Hclosed).
  exists lines. split; [exact Hfile|]. split; [|split; [exact Hclosed | exact Hlen]].
  apply (Hrows 1%nat). reflexivity.
Defined.

(** The old report is gone, the other file is still there. *)
Lemma generate_report_overwrites_only_the_report_witness :
  report_of (fst (generate_report sample_str_datetime sample_str_timedelta
                    (map metric_of [pr_draft; pr_backwards; pr_two_days])
                    (timedelta_days 1) 2 3 stale_world)) =
    Some (report_lines sample_str_datetime sample_str_timedelta
            (map metric_of [pr_draft; pr_backwards; pr_two_days]) (timedelta_days 1) 2 3) /\
  delete REPORT_FILE
    (files (fst (generate_report sample_str_datetime sample_str_timedelta
                   (map metric_of [pr_draft; pr_backwards; pr_two_days])
                   (timedelta_days 1) 2 3 stale_world))) =
    delete REPORT_FILE (files stale_world) /\
  stdout (fst (generate_report sample_str_datetime sample_str_timedelta
                 (map metric_of [pr_draft; pr_backwards; pr_two_days])
                 (timedelta_days 1) 2 3 stale_world)) =
    ["started"; "Wrote PR metrics to pr_metrics.md"].
Proof.
  destruct (generate_report_overwrites_only_the_report
              sample_str_datetime sample_str_timedelta
              (map metric_of [pr_draft; pr_backwards; pr_two_days])
              (timedelta_days 1) 2 3 stale_world generate_report_sample_completes)
    as (Hfile & _ & Hframe & Hout).
  split; [exact Hfile|]. split; [exact Hframe | exact Hout].
Defined.

Lemma main_widest_raises :
  snd (main sample_str_datetime sample_str_timedelta widest_repository stale_world) =
    Raise OverflowError.
Proof.
  unfold main, fetch_pull_requests, widest_repository. cbn [closed_pull_requests].
  unfold bind at 1. unfold aggregate. unfold bind at 1.
  rewrite for_each_widest_overflows; [reflexivity | |].
  - cbn [initial_locals total_time_to_merge].
    unfold timedelta_zero, timedelta_max, TIMEDELTA_MAX_DAYS, US_PER_DAY. lia.
  - rewrite duration_pr_widest.
    cbn [initial_locals total_time_to_merge].
    unfold timedelta_zero, timedelta_max, TIMEDELTA_MAX_DAYS, DATETIME_DAYS, US_PER_DAY.
    lia.
Qed.

(** The old report survives an overflow. *)
Lemma main_overflow_writes_nothing_witness :
  snd (aggregate (closed_pull_requests widest_repository) stale_world) = Raise OverflowError /\
  fst (main sample_str_datetime sample_str_timedelta widest_repository stale_world) =
    stale_world.
Proof.
  exact (main_overflow_writes_nothing sample_str_datetime sample_str_timedelta
           widest_repository stale_world main_widest_raises).
Defined.
